(** * Book Connect (DJS03): a shallow embedding of the browsing widget

  The repository holds two versions of the page script:
  - [src/scripts.js], whose lower half still has the inline event handlers;
  - [src/unnamed/part_000], whose lower half was refactored into helper
    functions ([filterBooks], [updateBookList], [updateShowMoreButton],
    [displayBookDetails]).
  Lines 1-84 of the two files are the same text; they are embedded once
  (module [Common]).  The handlers of each file live in the modules
  [Scripts] and [Part000].

  The imported [./data.js] (books, authors, genres, BOOKS_PER_PAGE) and the
  string built-ins of the platform are not part of the sources; they are
  the fields of the class [DataJs]. *)

From Stdlib Require Import List String Ascii ZArith Lia Bool DecimalString.
Import ListNotations.
Local Open Scope Z_scope.

(* ------------------------------------------------------------------ *)
(** ** Strings *)

Module Str.

Definition empty : string := EmptyString.

(** The one-character string made of a double quote. *)
Definition dq : string := String "034"%char EmptyString.

(** [starts_with t s]: [t] is a prefix of [s]. *)
Fixpoint starts_with (t s : string) : bool :=
  match t, s with
  | EmptyString, _ => true
  | String _ _, EmptyString => false
  | String a t', String b s' => Ascii.eqb a b && starts_with t' s'
  end.

(** [s.includes(t)]: [t] occurs in [s] as a contiguous block. *)
Fixpoint includes (s t : string) : bool :=
  if starts_with t s then true
  else match s with
       | EmptyString => false
       | String _ s' => includes s' t
       end.

(** Rendering of a number inside a template literal (integers only). *)
Definition of_Z (z : Z) : string := NilZero.string_of_int (Z.to_int z).

(** White space as HTML understands it. *)
Definition is_ws (c : ascii) : bool :=
  (Ascii.eqb c " " || Ascii.eqb c "009" || Ascii.eqb c "010"
   || Ascii.eqb c "012" || Ascii.eqb c "013")%bool.

(** Replace every maximal run of white space by one space.  [in_ws] tells
    whether the character before [s] was white space. *)
Fixpoint collapse (in_ws : bool) (s : string) : string :=
  match s with
  | EmptyString => EmptyString
  | String c r =>
      if is_ws c
      then (if in_ws then collapse true r else String " "%char (collapse true r))
      else String c (collapse false r)
  end.

Definition collapse_ws (s : string) : string := collapse false s.

(** Whether the text [pre ++ s] ends in white space, [pre] doing so or not
    according to [in_ws]. *)
Fixpoint ends_ws (in_ws : bool) (s : string) : bool :=
  match s with
  | EmptyString => in_ws
  | String c r => ends_ws (is_ws c) r
  end.

(** The text in front of the first tag of a piece of markup: the data of
    the first text node once the markup is parsed. *)
Fixpoint text_before_tag (s : string) : string :=
  match s with
  | EmptyString => EmptyString
  | String c r => if Ascii.eqb c "<" then EmptyString else String c (text_before_tag r)
  end.

End Str.

(* ------------------------------------------------------------------ *)
(** ** Arrays: [Array.prototype.slice] *)

Module Arr.

(** Relative index resolution of [slice]: a negative index counts from the
    end, and the result is clamped to [0 .. len]. *)
Definition rel_index (len i : Z) : Z :=
  if i <? 0 then Z.max (len + i) 0 else Z.min i len.

Definition slice {A : Type} (l : list A) (start stop : Z) : list A :=
  let len := Z.of_nat (List.length l) in
  let k := rel_index len start in
  let final := rel_index len stop in
  firstn (Z.to_nat (final - k)) (skipn (Z.to_nat k) l).

Definition len {A : Type} (l : list A) : Z := Z.of_nat (List.length l).

End Arr.

(* ------------------------------------------------------------------ *)
(** ** Plain objects with string values *)

Module Obj.

(** An object is the list of its own properties, in enumeration order;
    keys are unique. *)
Definition t : Type := list (string * string).

(** [o[k]]; [None] stands for [undefined]. *)
Fixpoint get (o : t) (k : string) : option string :=
  match o with
  | [] => None
  | (k', v) :: o' => if String.eqb k' k then Some v else get o' k
  end.

(** [o[k] = v]: overwrite in place when the key exists, else add last. *)
Fixpoint put (o : t) (k v : string) : t :=
  match o with
  | [] => [(k, v)]
  | (k', v') :: o' =>
      if String.eqb k' k then (k', v) :: o' else (k', v') :: put o' k v
  end.

(** [Object.fromEntries(entries)]. *)
Definition fromEntries (entries : list (string * string)) : t :=
  fold_left (fun o kv => put o (fst kv) (snd kv)) entries [].

(** [Object.entries(o)]. *)
Definition entries (o : t) : list (string * string) := o.

(** A value inside a template literal: [undefined] prints as such. *)
Definition interpolate (v : option string) : string :=
  match v with
  | Some s => s
  | None => "undefined"%string
  end.

End Obj.

(* ------------------------------------------------------------------ *)
(** ** Data model *)

Module Book.
Record t : Type := mk {
  id : string;
  title : string;
  author : string;
  image : string;
  description : string;
  published : string;
  genres : list string
}.
End Book.

(** What [./data.js] exports and what the platform provides. *)
Class DataJs : Type := {
  books : list Book.t;
  authors : Obj.t;
  genres : Obj.t;
  BOOKS_PER_PAGE : Z;
  (** [String.prototype.toLowerCase] and [String.prototype.trim]. *)
  toLowerCase : string -> string;
  trim : string -> string;
  (** [new Date(s).getFullYear()], as printed in a template literal. *)
  getFullYear : string -> string;
  (** [window.matchMedia('(prefers-color-scheme: dark)').matches]. *)
  prefersDark : bool
}.

(** A preview button. *)
Record Element : Type := {
  tagName : string;
  classList : string;
  data_preview : string;
  innerHTML : string
}.

(** An [<option>] of a dropdown. *)
Record OptionElement : Type := {
  value : string;
  innerText : string
}.

(** ** The document

    Only the parts the scripts read or write.  Every element the scripts
    query for is taken to exist (the HTML page is not among the sources). *)

(** [data-list-button]. *)
Record Button : Type := {
  disabled : bool;
  button_html : string
}.

(** The list area: [data-list-items], [data-list-message], [data-list-button]. *)
Record ListView : Type := {
  items : list Element;
  message_show : bool;          (* class list__message_show *)
  button : Button
}.

(** The detail overlay: [data-list-active] and the elements inside it. *)
Record Detail : Type := {
  active_open : bool;
  blur_src : string;
  image_src : string;
  title_text : string;
  subtitle_text : string;
  description_text : string
}.

(** The two custom properties set on the root element. *)
Record Theme : Type := {
  color_dark : string;
  color_light : string
}.

Record Dropdowns : Type := {
  search_genres : list OptionElement;
  search_authors : list OptionElement
}.

Record Overlays : Type := {
  search_overlay_open : bool;      (* [data-search-overlay].open *)
  settings_overlay_open : bool;    (* [data-settings-overlay].open *)
  search_form_open : option bool;  (* own property [open] of [data-search-form] *)
  search_title_focused : bool      (* [data-search-title] has the focus *)
}.

Record Dom : Type := {
  view : ListView;
  detail : Detail;
  theme : Theme;
  dropdowns : Dropdowns;
  overlays : Overlays;
  settings_theme : string;         (* [data-settings-theme].value *)
  scroll_top : Z
}.

Definition with_items (f : list Element -> list Element) (v : ListView) : ListView :=
  {| items := f (items v); message_show := message_show v; button := button v |}.

Definition with_message_show (b : bool) (v : ListView) : ListView :=
  {| items := items v; message_show := b; button := button v |}.

Definition with_button (b : Button) (v : ListView) : ListView :=
  {| items := items v; message_show := message_show v; button := b |}.

Definition with_search_genres (f : list OptionElement -> list OptionElement)
    (d : Dropdowns) : Dropdowns :=
  {| search_genres := f (search_genres d); search_authors := search_authors d |}.

Definition with_search_authors (f : list OptionElement -> list OptionElement)
    (d : Dropdowns) : Dropdowns :=
  {| search_genres := search_genres d; search_authors := f (search_authors d) |}.

Definition with_search_overlay_open (b : bool) (o : Overlays) : Overlays :=
  {| search_overlay_open := b;
     settings_overlay_open := settings_overlay_open o;
     search_form_open := search_form_open o;
     search_title_focused := search_title_focused o |}.

Definition with_settings_overlay_open (b : bool) (o : Overlays) : Overlays :=
  {| search_overlay_open := search_overlay_open o;
     settings_overlay_open := b;
     search_form_open := search_form_open o;
     search_title_focused := search_title_focused o |}.

Definition with_search_form_open (b : bool) (o : Overlays) : Overlays :=
  {| search_overlay_open := search_overlay_open o;
     settings_overlay_open := settings_overlay_open o;
     search_form_open := Some b;
     search_title_focused := search_title_focused o |}.

Definition with_search_title_focused (b : bool) (o : Overlays) : Overlays :=
  {| search_overlay_open := search_overlay_open o;
     settings_overlay_open := settings_overlay_open o;
     search_form_open := search_form_open o;
     search_title_focused := b |}.

Definition with_view (f : ListView -> ListView) (d : Dom) : Dom :=
  {| view := f (view d); detail := detail d; theme := theme d;
     dropdowns := dropdowns d; overlays := overlays d;
     settings_theme := settings_theme d; scroll_top := scroll_top d |}.

Definition with_detail (x : Detail) (d : Dom) : Dom :=
  {| view := view d; detail := x; theme := theme d;
     dropdowns := dropdowns d; overlays := overlays d;
     settings_theme := settings_theme d; scroll_top := scroll_top d |}.

Definition with_theme (x : Theme) (d : Dom) : Dom :=
  {| view := view d; detail := detail d; theme := x;
     dropdowns := dropdowns d; overlays := overlays d;
     settings_theme := settings_theme d; scroll_top := scroll_top d |}.

Definition with_dropdowns (f : Dropdowns -> Dropdowns) (d : Dom) : Dom :=
  {| view := view d; detail := detail d; theme := theme d;
     dropdowns := f (dropdowns d); overlays := overlays d;
     settings_theme := settings_theme d; scroll_top := scroll_top d |}.

Definition with_overlays (f : Overlays -> Overlays) (d : Dom) : Dom :=
  {| view := view d; detail := detail d; theme := theme d;
     dropdowns := dropdowns d; overlays := f (overlays d);
     settings_theme := settings_theme d; scroll_top := scroll_top d |}.

Definition with_settings_theme (x : string) (d : Dom) : Dom :=
  {| view := view d; detail := detail d; theme := theme d;
     dropdowns := dropdowns d; overlays := overlays d;
     settings_theme := x; scroll_top := scroll_top d |}.

Definition with_scroll_top (x : Z) (d : Dom) : Dom :=
  {| view := view d; detail := detail d; theme := theme d;
     dropdowns := dropdowns d; overlays := overlays d;
     settings_theme := settings_theme d; scroll_top := x |}.

(* ------------------------------------------------------------------ *)
(** ** Program state

    [matches] is a reference: at start it is bound to the imported array
    [books] itself; the inline filter of [src/scripts.js] allocates a new
    array and rebinds it.  [heap] holds the arrays the script allocated, in
    allocation order. *)

Inductive Ref : Type :=
| BooksArray              (* the array exported by ./data.js *)
| Allocated (n : nat).    (* the n-th array created by the script *)

Record State : Type := {
  heap : list (list Book.t);
  page : Z;
  matches : Ref;
  dom : Dom
}.

Definition with_dom (f : Dom -> Dom) (s : State) : State :=
  {| heap := heap s; page := page s; matches := matches s; dom := f (dom s) |}.

Definition with_page (p : Z) (s : State) : State :=
  {| heap := heap s; page := p; matches := matches s; dom := dom s |}.

Definition with_matches (r : Ref) (s : State) : State :=
  {| heap := heap s; page := page s; matches := r; dom := dom s |}.

Definition with_heap (f : list (list Book.t) -> list (list Book.t)) (s : State) : State :=
  {| heap := f (heap s); page := page s; matches := matches s; dom := dom s |}.

(** The array a reference denotes. *)
Definition deref `{DataJs} (h : list (list Book.t)) (r : Ref) : list Book.t :=
  match r with
  | BooksArray => books
  | Allocated n => nth n h []
  end.

(** [a.push(x)] on the array at [n]. *)
Fixpoint push {A : Type} (h : list (list A)) (n : nat) (x : A) : list (list A) :=
  match h, n with
  | [], _ => []
  | a :: h', O => (a ++ [x]) :: h'
  | a :: h', S n' => a :: push h' n' x
  end.

(* ------------------------------------------------------------------ *)
(** ** Statements: state plus exceptions *)

Inductive Exn : Type := TypeError.

Inductive Completion (A : Type) : Type :=
| Normal (a : A)
| Abrupt (e : Exn).
Arguments Normal {A} a.
Arguments Abrupt {A} e.

(** A statement runs on a state; when it throws, the state reached so far
    stays. *)
Definition JS (A : Type) : Type := State -> Completion A * State.

Definition ret {A : Type} (a : A) : JS A := fun s => (Normal a, s).

Definition throw {A : Type} (e : Exn) : JS A := fun s => (Abrupt e, s).

Definition bind {A B : Type} (c : JS A) (k : A -> JS B) : JS B :=
  fun s =>
    match c s with
    | (Normal a, s') => k a s'
    | (Abrupt e, s') => (Abrupt e, s')
    end.

Definition get_state : JS State := fun s => (Normal s, s).

Definition modify (f : State -> State) : JS unit := fun s => (Normal tt, f s).

Declare Scope js_scope.
Delimit Scope js_scope with js.
Notation "x <- c ;; k" := (bind c (fun x => k))
  (at level 61, c at next level, right associativity) : js_scope.
Notation "c ;; k" := (bind c (fun _ => k))
  (at level 61, right associativity) : js_scope.

(** The state an event handler leaves behind, whether it returned or threw. *)
Definition exec (c : JS unit) (s : State) : State := snd (c s).

Definition returns {A : Type} (c : JS A) (s : State) : Prop :=
  exists a, fst (c s) = Normal a.

(* ------------------------------------------------------------------ *)
(** ** Events *)

(** The submitted form, as the list of entries of [new FormData(form)]. *)
Definition FormData : Type := list (string * string).

(** A node on the propagation path of a click: its class names and its
    [data-preview] attribute ([None] when absent, as for [document] and
    [window], which have no [dataset] at all). *)
Record Node : Type := {
  node_classes : list string;
  dataset_preview : option string
}.

Inductive Event : Type :=
| SearchFormSubmit (fd : FormData)
| SettingsFormSubmit (fd : FormData)
| ListButtonClick
| ListItemsClick (path : list Node)   (* target first, then its ancestors *)
| HeaderSearchClick
| HeaderSettingsClick
| SearchCancelClick
| SettingsCancelClick.

(** JavaScript truthiness of a string-or-undefined value. *)
Definition truthy (v : option string) : bool :=
  match v with
  | Some s => negb (String.eqb s Str.empty)
  | None => false
  end.

(** [v === s] for a string-or-undefined [v]. *)
Definition strict_eq (v : option string) (s : string) : bool :=
  match v with
  | Some x => String.eqb x s
  | None => false
  end.

(** Values that reach [populateDropdown] at its call sites. *)
Inductive Value : Type :=
| VUndefined
| VObject (o : Obj.t)
| VFunction (f : list string -> Value).

(* ------------------------------------------------------------------ *)
(** ** Lines 1-84, common to both files *)

Module Common.
Section WithData.
Context `{DataJs}.
Local Open Scope string_scope.
Local Open Scope js_scope.

Definition nl : string := String "010"%char EmptyString.

(** Lines 12-26. *)
Definition createBookPreviewElement (b : Book.t) : Element :=
  {| tagName := "button";
     classList := "preview";
     data_preview := Book.id b;
     innerHTML :=
       nl ++ "        <img class=" ++ Str.dq ++ "preview__image" ++ Str.dq
          ++ " src=" ++ Str.dq ++ Book.image b ++ Str.dq ++ " />"
       ++ nl ++ "        <div class=" ++ Str.dq ++ "preview__info" ++ Str.dq ++ ">"
       ++ nl ++ "            <h3 class=" ++ Str.dq ++ "preview__title" ++ Str.dq ++ ">"
          ++ Book.title b ++ "</h3>"
       ++ nl ++ "            <div class=" ++ Str.dq ++ "preview__author" ++ Str.dq ++ ">"
          ++ Obj.interpolate (Obj.get authors (Book.author b)) ++ "</div>"
       ++ nl ++ "        </div>"
       ++ nl ++ "    " |}.

Definition list_items_append (es : list Element) : JS unit :=
  modify (with_dom (with_view (with_items (fun old => (old ++ es)%list)))).

(** Lines 32-38. *)
Definition renderInitialBooks (booksToRender : list Book.t) : JS unit :=
  let fragment := map createBookPreviewElement (Arr.slice booksToRender 0 BOOKS_PER_PAGE) in
  list_items_append fragment.

Inductive Dropdown : Type := SearchGenres | SearchAuthors.

Definition dropdown_append (d : Dropdown) (os : list OptionElement) : JS unit :=
  match d with
  | SearchGenres =>
      modify (with_dom (with_dropdowns (with_search_genres (fun old => (old ++ os)%list))))
  | SearchAuthors =>
      modify (with_dom (with_dropdowns (with_search_authors (fun old => (old ++ os)%list))))
  end.

(** Lines 48-62, on well-typed arguments. *)
Definition populateDropdown (dropdown : Dropdown) (options : Obj.t)
    (defaultLabel : string) : JS unit :=
  let defaultOption := {| value := "any"; innerText := defaultLabel |} in
  let fragment :=
    defaultOption
      :: map (fun e => {| value := fst e; innerText := snd e |}) (Obj.entries options) in
  dropdown_append dropdown fragment.

(** [Object.entries(v)] for a value of any kind. *)
Definition object_entries (v : Value) : JS Obj.t :=
  match v with
  | VUndefined => throw TypeError
  | VObject o => ret (Obj.entries o)
  | VFunction _ => ret []
  end.

(** Lines 48-62 as JavaScript runs them, whatever the arguments are. *)
Definition call_populateDropdown (dropdown : Dropdown) (options : Value)
    (defaultLabel : option string) : JS unit :=
  es <- object_entries options ;;
  populateDropdown dropdown es (Obj.interpolate defaultLabel).

(** A tagged template [callee`...`]: a call of [callee] on the template's
    strings. *)
Definition tagged_template (callee : Value) (strings : list string) : JS Value :=
  match callee with
  | VFunction f => ret (f strings)
  | VUndefined | VObject _ => throw TypeError
  end.

(** Lines 71-75. *)
Definition applyTheme (theme : option string) : JS unit :=
  let isNight := strict_eq theme "night" in
  modify (with_dom (with_theme
    {| color_dark := if isNight then "255, 255, 255" else "10, 10, 20";
       color_light := if isNight then "10, 10, 20" else "255, 255, 255" |})).

(** Lines 77-82. *)
Definition initTheme : JS unit :=
  let theme := if prefersDark then "night" else "day" in
  modify (with_dom (with_settings_theme theme)) ;;
  applyTheme (Some theme).

(** Lines 3-4: the module variables before the first statement runs. *)
Definition initial_state (d : Dom) : State :=
  {| heap := []; page := 1; matches := BooksArray; dom := d |}.

(** Line 40. *)
Definition initial_paint : JS unit :=
  s <- get_state ;;
  renderInitialBooks (deref (heap s) (matches s)).

(** Lines 40-84, in order.  Lines 64 and 65 have no comma between [genres]
    (resp. [authors]) and the template literal, so each is a tagged
    template whose result is the second argument of [populateDropdown]; the
    third argument is missing.  The selector of line 65 lacks its closing
    bracket; it is read as the selector of the author dropdown. *)
Definition startup : JS unit :=
  initial_paint ;;
  options <- tagged_template (VObject genres) ["All genres"] ;;
  call_populateDropdown SearchGenres options None ;;
  options <- tagged_template (VObject authors) ["All Authors"] ;;
  call_populateDropdown SearchAuthors options None ;;
  initTheme.

(** The "Show more" label, lines 130-133 of part_000 and 144-147 of
    scripts.js. *)
Definition show_more_html (shown : Z) : string :=
  nl ++ "        <span>Show more</span>"
  ++ nl ++ "        <span class=" ++ Str.dq ++ "list__remaining" ++ Str.dq ++ "> ("
     ++ Str.of_Z shown ++ ")</span>"
  ++ nl ++ "    ".

End WithData.
End Common.

(* ------------------------------------------------------------------ *)
(** ** src/scripts.js, lines 86-207 *)

Module Scripts.
Section WithData.
Context `{DataJs}.
Local Open Scope string_scope.
Local Open Scope js_scope.
Import Common.

(** Lines 93-98: the scan of one book's genres. *)
Fixpoint genre_loop (genre : option string) (gs : list string) (genreMatch : bool) : bool :=
  match gs with
  | [] => genreMatch
  | singleGenre :: rest =>
      if genreMatch then genreMatch                        (* break *)
      else genre_loop genre rest
             (if strict_eq genre singleGenre then true else genreMatch)
  end.

(** Lines 93-104: does [book] pass?  [filters.title.trim()] throws when the
    form has no [title] field. *)
Definition book_passes (filters : Obj.t) (book : Book.t) : JS bool :=
  let genreMatch :=
    genre_loop (Obj.get filters "genre") (Book.genres book)
               (strict_eq (Obj.get filters "genre") "any") in
  match Obj.get filters "title" with
  | None => throw TypeError
  | Some t =>
      ret ((String.eqb (trim t) Str.empty
            || Str.includes (toLowerCase (Book.title book)) (toLowerCase t))
           && (strict_eq (Obj.get filters "author") "any"
               || strict_eq (Obj.get filters "author") (Book.author book))
           && genreMatch)%bool
  end.

(** Lines 92-107: the loop over [books], pushing onto the array at [result]. *)
Fixpoint filter_loop (filters : Obj.t) (result : nat) (bs : list Book.t) : JS unit :=
  match bs with
  | [] => ret tt
  | book :: rest =>
      keep <- book_passes filters book ;;
      (if keep : bool then modify (with_heap (fun h => push h result book)) else ret tt) ;;
      filter_loop filters result rest
  end.

(** Lines 122-136 and 157-171 (the same text): the preview built in place. *)
Definition inline_preview (b : Book.t) : Element :=
  {| tagName := "button";
     classList := "preview";
     data_preview := Book.id b;
     innerHTML :=
       nl ++ "            <img"
       ++ nl ++ "                class=" ++ Str.dq ++ "preview__image" ++ Str.dq
       ++ nl ++ "                src=" ++ Str.dq ++ Book.image b ++ Str.dq
       ++ nl ++ "            />"
       ++ nl ++ "            "
       ++ nl ++ "            <div class=" ++ Str.dq ++ "preview__info" ++ Str.dq ++ ">"
       ++ nl ++ "                <h3 class=" ++ Str.dq ++ "preview__title" ++ Str.dq ++ ">"
          ++ Book.title b ++ "</h3>"
       ++ nl ++ "                <div class=" ++ Str.dq ++ "preview__author" ++ Str.dq ++ ">"
          ++ Obj.interpolate (Obj.get authors (Book.author b)) ++ "</div>"
       ++ nl ++ "            </div>"
       ++ nl ++ "        " |}.

(** Lines 90-107: [const result = []] and the loop that fills it; the value
    is the reference to the new array. *)
Definition inline_filter (filters : Obj.t) : JS nat :=
  s0 <- get_state ;;
  let result := List.length (heap s0) in
  modify (with_heap (fun h => (h ++ [[]])%list)) ;;
  filter_loop filters result books ;;
  ret result.

(** Lines 109-150: what follows the loop, [result] being the new array. *)
Definition repaint (result : nat) : JS unit :=
  modify (with_page 1) ;;
  modify (with_matches (Allocated result)) ;;
  s1 <- get_state ;;
  let result_array := deref (heap s1) (Allocated result) in
  modify (with_dom (with_view (with_message_show (Z.ltb (Arr.len result_array) 1)))) ;;
  modify (with_dom (with_view (with_items (fun _ => [])))) ;;
  let newItems := map inline_preview (Arr.slice result_array 0 BOOKS_PER_PAGE) in
  list_items_append newItems ;;
  s2 <- get_state ;;
  let remaining := Arr.len (deref (heap s2) (matches s2)) - page s2 * BOOKS_PER_PAGE in
  modify (with_dom (with_view (with_button
    {| disabled := Z.ltb remaining 1;
       button_html := show_more_html (if Z.gtb remaining 0 then remaining else 0) |}))) ;;
  modify (with_dom (with_scroll_top 0)) ;;
  modify (with_dom (with_overlays (with_search_overlay_open false))).

(** Lines 86-151. *)
Definition on_search_form_submit (fd : FormData) : JS unit :=
  let filters := Obj.fromEntries fd in
  result <- inline_filter filters ;;
  repaint result.

(** Lines 153-178. *)
Definition on_list_button_click : JS unit :=
  s <- get_state ;;
  let fragment :=
    map inline_preview
        (Arr.slice (deref (heap s) (matches s))
                   (page s * BOOKS_PER_PAGE) ((page s + 1) * BOOKS_PER_PAGE)) in
  list_items_append fragment ;;
  s' <- get_state ;;
  modify (with_page (page s' + 1)).

(** Lines 190-193. *)
Fixpoint book_loop (preview : option string) (bs : list Book.t)
    (result : option Book.t) : option Book.t :=
  match bs with
  | [] => result
  | singleBook :: rest =>
      match result with
      | Some _ => result                                   (* break *)
      | None =>
          book_loop preview rest
            (if strict_eq preview (Book.id singleBook) then Some singleBook else result)
      end
  end.

(** Lines 184-197. *)
Fixpoint path_loop (pathArray : list Node) (active : option Book.t) : option Book.t :=
  match pathArray with
  | [] => active
  | node :: rest =>
      match active with
      | Some _ => active                                   (* break *)
      | None =>
          path_loop rest
            (if truthy (dataset_preview node)
             then book_loop (dataset_preview node) books None
             else active)
      end
  end.

(** Lines 180-207. *)
Definition on_list_items_click (path : list Node) : JS unit :=
  match path_loop path None with
  | Some active =>
      modify (with_dom (with_detail
        {| active_open := true;
           blur_src := Book.image active;
           image_src := Book.image active;
           title_text := Book.title active;
           subtitle_text :=
             Obj.interpolate (Obj.get authors (Book.author active))
             ++ " (" ++ getFullYear (Book.published active) ++ ")";
           description_text := Book.description active |}))
  | None => ret tt
  end.

(** The listeners this file registers; any other event finds none, and
    what the browser does by itself on such an event is not modelled. *)
Definition handler (e : Event) : JS unit :=
  match e with
  | SearchFormSubmit fd => on_search_form_submit fd
  | ListButtonClick => on_list_button_click
  | ListItemsClick path => on_list_items_click path
  | SettingsFormSubmit _ | HeaderSearchClick | HeaderSettingsClick
  | SearchCancelClick | SettingsCancelClick => ret tt
  end.

Definition step (s : State) (e : Event) : State := exec (handler e) s.

Definition run (es : list Event) (s : State) : State := fold_left step es s.

End WithData.
End Scripts.

(* ------------------------------------------------------------------ *)
(** ** src/unnamed/part_000, lines 86-186 *)

Module Part000.
Section WithData.
Context `{DataJs}.
Local Open Scope string_scope.
Local Open Scope js_scope.
Import Common.

(** Lines 86-93: the listener on [data-search-form]. *)
Definition on_search_form_submit (fd : FormData) : JS unit :=
  let theme := Obj.get (Obj.fromEntries fd) "theme" in
  applyTheme theme ;;
  modify (with_dom (with_overlays (with_search_form_open false))).

(** Lines 102-105: the callback of [books.filter]. *)
Definition filter_callback (filters : Obj.t) (book : Book.t) : JS bool :=
  let matchesGenre :=
    (strict_eq (Obj.get filters "genre") "any"
     || existsb (fun g => strict_eq (Obj.get filters "genre") g) (Book.genres book))%bool in
  let matchesAuthor :=
    (strict_eq (Obj.get filters "author") "any"
     || strict_eq (Obj.get filters "author") (Book.author book))%bool in
  match Obj.get filters "title" with
  | None => throw TypeError
  | Some t =>
      let matchesTitle :=
        (String.eqb (trim t) Str.empty
         || Str.includes (toLowerCase (Book.title book)) (toLowerCase t))%bool in
      ret (matchesGenre && matchesAuthor && matchesTitle)%bool
  end.

(** [Array.prototype.filter] with a callback that may throw. *)
Fixpoint array_filter {A : Type} (f : A -> JS bool) (l : list A) : JS (list A) :=
  match l with
  | [] => ret []
  | x :: rest =>
      keep <- f x ;;
      kept <- array_filter f rest ;;
      ret (if keep : bool then x :: kept else kept)
  end.

(** Lines 100-107. *)
Definition filterBooks (filters : Obj.t) : JS (list Book.t) :=
  array_filter (filter_callback filters) books.

(** Lines 126-134. *)
Definition updateShowMoreButton (totalBooks : Z) : JS unit :=
  s <- get_state ;;
  let remainingBooks := totalBooks - page s * BOOKS_PER_PAGE in
  modify (with_dom (with_view (with_button
    {| disabled := Z.leb remainingBooks 0;
       button_html := show_more_html (if Z.gtb remainingBooks 0 then remainingBooks else 0) |}))).

(** Lines 113-120. *)
Definition updateBookList (filteredBooks : list Book.t) : JS unit :=
  modify (with_dom (with_view (with_items (fun _ => [])))) ;;
  let fragment :=
    map createBookPreviewElement (Arr.slice filteredBooks 0 BOOKS_PER_PAGE) in
  list_items_append fragment ;;
  updateShowMoreButton (Arr.len filteredBooks).

(** Lines 137-145. *)
Definition on_list_button_click : JS unit :=
  s <- get_state ;;
  let fragment :=
    map createBookPreviewElement
        (Arr.slice (deref (heap s) (matches s))
                   (page s * BOOKS_PER_PAGE) ((page s + 1) * BOOKS_PER_PAGE)) in
  list_items_append fragment ;;
  s' <- get_state ;;
  modify (with_page (page s' + 1)) ;;
  s'' <- get_state ;;
  updateShowMoreButton (Arr.len (deref (heap s'') (matches s''))).

(** Lines 148-151. *)
Definition on_header_search_click : JS unit :=
  modify (with_dom (with_overlays (with_search_overlay_open true))) ;;
  modify (with_dom (with_overlays (with_search_title_focused true))).

(** Lines 154-156. *)
Definition on_header_settings_click : JS unit :=
  modify (with_dom (with_overlays (with_settings_overlay_open true))).

(** Lines 159-161. *)
Definition on_search_cancel_click : JS unit :=
  modify (with_dom (with_overlays (with_search_overlay_open false))).

(** Lines 163-165. *)
Definition on_settings_cancel_click : JS unit :=
  modify (with_dom (with_overlays (with_settings_overlay_open false))).

(** Lines 171-178. *)
Definition displayBookDetails (book : Book.t) : JS unit :=
  modify (with_dom (with_detail
    {| active_open := true;
       blur_src := Book.image book;
       image_src := Book.image book;
       title_text := Book.title book;
       subtitle_text :=
         Obj.interpolate (Obj.get authors (Book.author book))
         ++ " (" ++ getFullYear (Book.published book) ++ ")";
       description_text := Book.description book |})).

(** [node.closest('.preview')] along the chain target, parent, ... *)
Definition closest_preview (path : list Node) : option Node :=
  find (fun n => existsb (String.eqb "preview") (node_classes n)) path.

(** Lines 180-186. *)
Definition on_list_items_click (path : list Node) : JS unit :=
  let bookId :=
    match closest_preview path with
    | Some n => dataset_preview n
    | None => None
    end in
  if truthy bookId then
    match find (fun book => strict_eq bookId (Book.id book)) books with
    | Some selectedBook => displayBookDetails selectedBook
    | None => ret tt
    end
  else ret tt.

(** The listeners this file registers; [data-settings-form] has none, and
    what the browser does by itself on its submission is not modelled. *)
Definition handler (e : Event) : JS unit :=
  match e with
  | SearchFormSubmit fd => on_search_form_submit fd
  | ListButtonClick => on_list_button_click
  | ListItemsClick path => on_list_items_click path
  | HeaderSearchClick => on_header_search_click
  | HeaderSettingsClick => on_header_settings_click
  | SearchCancelClick => on_search_cancel_click
  | SettingsCancelClick => on_settings_cancel_click
  | SettingsFormSubmit _ => ret tt
  end.

Definition step (s : State) (e : Event) : State := exec (handler e) s.

Definition run (es : list Event) (s : State) : State := fold_left step es s.

End WithData.
End Part000.

(* ------------------------------------------------------------------ *)
(** ** What the specification says, in its own words *)

Module Spec.

Record FilterCriteria : Type := {
  genre : string;
  author : string;
  title : string
}.

(** [s] contains [t]. *)
Definition Contains (s t : string) : Prop :=
  exists a b : string, s = (a ++ t ++ b)%string.

Section WithData.
Context `{DataJs}.
Local Open Scope string_scope.

Definition genreMatch (c : FilterCriteria) (r : Book.t) : Prop :=
  genre c = "any" \/ In (genre c) (Book.genres r).

Definition authorMatch (c : FilterCriteria) (r : Book.t) : Prop :=
  author c = "any" \/ author c = Book.author r.

Definition titleMatch (c : FilterCriteria) (r : Book.t) : Prop :=
  trim (title c) = Str.empty
  \/ Contains (toLowerCase (Book.title r)) (toLowerCase (title c)).

(** The same three predicates as one test. *)
Definition satisfies (c : FilterCriteria) (r : Book.t) : bool :=
  ((String.eqb (genre c) "any" || existsb (String.eqb (genre c)) (Book.genres r))
   && (String.eqb (author c) "any" || String.eqb (author c) (Book.author r))
   && (String.eqb (trim (title c)) Str.empty
       || Str.includes (toLowerCase (Book.title r)) (toLowerCase (title c))))%bool.

(** [filter(catalog, criteria)]. *)
Definition filter_spec (catalog : list Book.t) (c : FilterCriteria) : list Book.t :=
  filter (satisfies c) catalog.

End WithData.

(** A form submission that carries the criteria [c]. *)
Definition carries (fd : FormData) (c : FilterCriteria) : Prop :=
  Obj.get (Obj.fromEntries fd) "genre" = Some (genre c)
  /\ Obj.get (Obj.fromEntries fd) "author" = Some (author c)
  /\ Obj.get (Obj.fromEntries fd) "title" = Some (title c).

(** [l1] is [l2] with some elements left out, order kept. *)
Inductive Subsequence {A : Type} : list A -> list A -> Prop :=
| sub_nil : Subsequence [] []
| sub_skip : forall x l1 l2, Subsequence l1 l2 -> Subsequence l1 (x :: l2)
| sub_keep : forall x l1 l2, Subsequence l1 l2 -> Subsequence (x :: l1) (x :: l2).

(** A node that is neither a preview nor carries an id. *)
Definition plain (n : Node) : Prop :=
  dataset_preview n = None /\ ~ In "preview"%string (node_classes n).

(** The node of a preview button as both files build it: class [preview],
    attribute [data-preview] set to the book's id. *)
Definition preview_node (id : string) : Node :=
  {| node_classes := ["preview"%string]; dataset_preview := Some id |}.

(** A click inside the preview that carries [id]: the target and the nodes up
    to the button, the button, then the list container and its ancestors. *)
Inductive ClickOn (id : string) : list Node -> Prop :=
| click_on : forall inner outer,
    Forall plain inner -> Forall plain outer ->
    ClickOn id (inner ++ preview_node id :: outer).

(** A click on the list container outside every preview. *)
Definition ClickOutside (path : list Node) : Prop := Forall plain path.

(** What [showDetail(record)] leaves in the detail overlay. *)
Definition detail_of `{DataJs} (r : Book.t) : Detail :=
  {| active_open := true;
     blur_src := Book.image r;
     image_src := Book.image r;
     title_text := Book.title r;
     subtitle_text :=
       (Obj.interpolate (Obj.get authors (Book.author r))
        ++ " (" ++ getFullYear (Book.published r) ++ ")")%string;
     description_text := Book.description r |}.

(** Number of previews in the list container against the pagination state. *)
Definition rendered_count_ok `{DataJs} (s : State) : Prop :=
  Arr.len (items (view (dom s)))
  = Z.min (BOOKS_PER_PAGE * page s) (Arr.len (deref (heap s) (matches s))).

(** Two preview buttons that differ at most in how long their runs of white
    space in the markup are. *)
Definition same_preview (e1 e2 : Element) : Prop :=
  tagName e1 = tagName e2
  /\ classList e1 = classList e2
  /\ data_preview e1 = data_preview e2
  /\ Str.collapse_ws (innerHTML e1) = Str.collapse_ws (innerHTML e2).

(** The frame of a click: the statement [c] returns from [s], keeps the
    pagination state and everything in the document but the detail overlay,
    and either changes nothing or shows one record of the catalog. *)
Definition only_detail_changes `{DataJs} (c : JS unit) (s : State) : Prop :=
  let s' := exec c s in
  fst (c s) = Normal tt
  /\ page s' = page s /\ matches s' = matches s /\ heap s' = heap s
  /\ view (dom s') = view (dom s)
  /\ theme (dom s') = theme (dom s)
  /\ dropdowns (dom s') = dropdowns (dom s)
  /\ overlays (dom s') = overlays (dom s)
  /\ settings_theme (dom s') = settings_theme (dom s)
  /\ scroll_top (dom s') = scroll_top (dom s)
  /\ (s' = s
      \/ exists r, In r books /\ s' = with_dom (with_detail (detail_of r)) s).

(** The reading of the click rule with no condition on the id: whenever the
    clicked preview carries the id of a record of the catalog (ids being
    unique), the detail overlay ends up showing that record. *)
Definition click_opens_detail_for_every_id : Prop :=
  forall (D : DataJs) (path : list Node) (r : Book.t) (s : State),
    NoDup (map Book.id books) ->
    In r books ->
    ClickOn (Book.id r) path ->
    detail (dom (Scripts.step s (ListItemsClick path))) = detail_of r
    /\ detail (dom (Part000.step s (ListItemsClick path))) = detail_of r.

(** The reading of "identical preview element" as equality of the elements
    that the helper and the inline construction of scripts.js build. *)
Definition previews_identical : Prop :=
  forall (D : DataJs) (b : Book.t),
    Common.createBookPreviewElement b = Scripts.inline_preview b.

End Spec.

(** The test of the lookup by id: [book.id === id]. *)
Definition has_id (id : string) (b : Book.t) : bool := String.eqb id (Book.id b).

(** A reference that denotes an array of the heap. *)
Definition valid_ref (h : list (list Book.t)) (r : Ref) : Prop :=
  match r with
  | BooksArray => True
  | Allocated n => (n < List.length h)%nat
  end.

(** The state that every handler keeps: the page number is at least 1,
    [matches] denotes an array, and the list shows the first [page] pages. *)
Definition page_invariant `{DataJs} (s : State) : Prop :=
  1 <= page s /\ valid_ref (heap s) (matches s) /\ Spec.rendered_count_ok s.

(* ------------------------------------------------------------------ *)
(** ** A small catalog to run the definitions on *)

Module Demo.
Local Open Scope string_scope.

Definition lower_char (c : ascii) : ascii :=
  let n := nat_of_ascii c in
  if (Nat.leb 65 n && Nat.leb n 90)%bool then ascii_of_nat (n + 32) else c.

Fixpoint lower (s : string) : string :=
  match s with
  | EmptyString => EmptyString
  | String c r => String (lower_char c) (lower r)
  end.

Fixpoint trim_start (s : string) : string :=
  match s with
  | EmptyString => EmptyString
  | String c r => if Str.is_ws c then trim_start r else s
  end.

Fixpoint rev_string (s : string) : string :=
  match s with
  | EmptyString => EmptyString
  | String c r => rev_string r ++ String c EmptyString
  end.

Definition trim_both (s : string) : string :=
  rev_string (trim_start (rev_string (trim_start s))).

Definition dune : Book.t :=
  Book.mk "b1" "Dune" "a1" "dune.jpg" "Sand." "1965-08-01" ["g1"].

Definition emma : Book.t :=
  Book.mk "b2" "Emma" "a2" "emma.jpg" "Matchmaking." "1815-12-23" ["g2"].

Definition dracula : Book.t :=
  Book.mk "b3" "Dracula" "a3" "dracula.jpg" "Letters." "1897-05-26" ["g1"; "g2"].

Definition data : DataJs := {|
  books := [dune; emma; dracula];
  authors := [("a1", "Frank Herbert"); ("a2", "Jane Austen"); ("a3", "Bram Stoker")];
  genres := [("g1", "Fantasy"); ("g2", "Classic")];
  BOOKS_PER_PAGE := 2;
  toLowerCase := lower;
  trim := trim_both;
  getFullYear := substring 0 4;
  prefersDark := false
|}.

(** A catalog whose only book has the empty string as id. *)
Definition nameless : Book.t :=
  Book.mk Str.empty "Untitled" "a1" "blank.jpg" "No id." "2000-01-01" ["g1"].

Definition data_nameless : DataJs := {|
  books := [nameless];
  authors := [("a1", "Frank Herbert")];
  genres := [("g1", "Fantasy")];
  BOOKS_PER_PAGE := 2;
  toLowerCase := lower;
  trim := trim_both;
  getFullYear := substring 0 4;
  prefersDark := false
|}.

Definition no_button : Button := {| disabled := false; button_html := Str.empty |}.

Definition no_detail : Detail :=
  {| active_open := false; blur_src := Str.empty; image_src := Str.empty;
     title_text := Str.empty; subtitle_text := Str.empty;
     description_text := Str.empty |}.

(** The page as loaded: empty list, no option in the dropdowns, everything
    closed, day colours. *)
Definition page0 : Dom :=
  {| view := {| items := []; message_show := false; button := no_button |};
     detail := no_detail;
     theme := {| color_dark := "10, 10, 20"; color_light := "255, 255, 255" |};
     dropdowns := {| search_genres := []; search_authors := [] |};
     overlays := {| search_overlay_open := false; settings_overlay_open := false;
                    search_form_open := None; search_title_focused := false |};
     settings_theme := "day";
     scroll_top := 0 |}.

(** The state after the first paint (line 40). *)
Definition painted : State :=
  exec (@Common.initial_paint data) (Common.initial_state page0).

Definition any_form : FormData := [("title", Str.empty); ("genre", "any"); ("author", "any")].

Definition no_match_form : FormData := [("title", "zzz"); ("genre", "any"); ("author", "any")].

Definition night_form : FormData := [("theme", "night")].

End Demo.

(* ------------------------------------------------------------------ *)
(** ** Notions for the properties of the rest of the code *)

(** The two colour pairs of [applyTheme] (lines 73-74). *)
Definition day_theme : Theme :=
  {| color_dark := "10, 10, 20"; color_light := "255, 255, 255" |}.

Definition night_theme : Theme :=
  {| color_dark := "255, 255, 255"; color_light := "10, 10, 20" |}.

(** The options of one dropdown, and the other dropdown. *)
Definition dropdown_options (dd : Common.Dropdown) (d : Dom) : list OptionElement :=
  match dd with
  | Common.SearchGenres => search_genres (dropdowns d)
  | Common.SearchAuthors => search_authors (dropdowns d)
  end.

Definition other_dropdown (dd : Common.Dropdown) : Common.Dropdown :=
  match dd with
  | Common.SearchGenres => Common.SearchAuthors
  | Common.SearchAuthors => Common.SearchGenres
  end.

(** The options [populateDropdown] builds from a map and a label. *)
Definition options_of (options : Obj.t) (label : string) : list OptionElement :=
  {| value := "any"; innerText := label |}
    :: map (fun e => {| value := fst e; innerText := snd e |}) options.

(** The test that both filters apply to one book when the form has the
    title [t]; the genre and author fields are read from the form and may be
    missing. *)
Definition passes_with_title `{DataJs} (filters : Obj.t) (t : string)
    (book : Book.t) : bool :=
  ((strict_eq (Obj.get filters "genre") "any"
    || existsb (strict_eq (Obj.get filters "genre")) (Book.genres book))
   && (strict_eq (Obj.get filters "author") "any"
       || strict_eq (Obj.get filters "author") (Book.author book))
   && (String.eqb (trim t) Str.empty
       || Str.includes (toLowerCase (Book.title book)) (toLowerCase t)))%bool.

(** The list shows the first [page] pages of [matches]: preview by preview
    it is what [createBookPreviewElement] builds from those books, up to
    white space in the markup. *)
Definition shows_pages `{DataJs} (s : State) : Prop :=
  Forall2 (fun e b => Spec.same_preview e (Common.createBookPreviewElement b))
    (items (view (dom s)))
    (Arr.slice (deref (heap s) (matches s)) 0 (page s * BOOKS_PER_PAGE)).

(** What every handler of both files keeps. *)
Definition list_invariant `{DataJs} (s : State) : Prop :=
  page_invariant s
  /\ shows_pages s
  /\ Spec.Subsequence (deref (heap s) (matches s)) books.

(** [page] is at least 1 and [matches] denotes a subsequence of the
    catalog. *)
Definition matches_in_catalog `{DataJs} (s : State) : Prop :=
  1 <= page s
  /\ valid_ref (heap s) (matches s)
  /\ Spec.Subsequence (deref (heap s) (matches s)) books.

(** Number of submissions of the search form among events. *)
Definition submissions (es : list Event) : nat :=
  List.length (filter (fun e => match e with SearchFormSubmit _ => true | _ => false end) es).

(** Number of "show more" presses among events. *)
Definition presses (es : list Event) : Z :=
  Z.of_nat (List.length (filter (fun e => match e with ListButtonClick => true | _ => false end) es)).

(** The book a node leads to in scripts.js: its [data-preview], when truthy,
    looked up in the catalog. *)
Definition node_book `{DataJs} (n : Node) : option Book.t :=
  if truthy (dataset_preview n)
  then find (fun b => strict_eq (dataset_preview n) (Book.id b)) books
  else None.

(** The first node of a path that leads to a book, and that book. *)
Fixpoint first_book `{DataJs} (path : list Node) : option Book.t :=
  match path with
  | [] => None
  | n :: rest =>
      match node_book n with
      | Some b => Some b
      | None => first_book rest
      end
  end.

(** The node of a rendered preview element: its class attribute holds the
    single name in [classList], its [data-preview] is the attribute set. *)
Definition node_of_element (e : Element) : Node :=
  {| node_classes := [classList e]; dataset_preview := Some (data_preview e) |}.

(** Whether the search overlay (resp. the settings overlay) is open after
    events, when only the header buttons and the cancel buttons write it. *)
Definition search_overlay_after (es : list Event) (open0 : bool) : bool :=
  fold_left (fun b e => match e with
                        | HeaderSearchClick => true
                        | SearchCancelClick => false
                        | _ => b
                        end) es open0.

Definition settings_overlay_after (es : list Event) (open0 : bool) : bool :=
  fold_left (fun b e => match e with
                        | HeaderSettingsClick => true
                        | SettingsCancelClick => false
                        | _ => b
                        end) es open0.


(** More sample data. *)
Module Samples.
Local Open Scope string_scope.

(** The demo catalog with a negative page size. *)
Definition data_negative : DataJs := {|
  books := [Demo.dune; Demo.emma; Demo.dracula];
  authors := [("a1", "Frank Herbert")];
  genres := [("g1", "Fantasy"); ("g2", "Classic")];
  BOOKS_PER_PAGE := -1;
  toLowerCase := Demo.lower;
  trim := Demo.trim_both;
  getFullYear := substring 0 4;
  prefersDark := true
|}.

(** An empty catalog. *)
Definition data_empty : DataJs := {|
  books := [];
  authors := [];
  genres := [];
  BOOKS_PER_PAGE := 2;
  toLowerCase := Demo.lower;
  trim := Demo.trim_both;
  getFullYear := substring 0 4;
  prefersDark := false
|}.

Definition blank_form : FormData := [("title", "   "); ("genre", "any"); ("author", "any")].

Definition no_title_form : FormData := [("genre", "any"); ("author", "any")].

Definition no_genre_form : FormData := [("title", Str.empty); ("author", "any")].

Definition dune_form : FormData := [("title", "DU"); ("genre", "g1"); ("author", "a1")].


End Samples.

(* ------------------------------------------------------------------ *)
(** * Properties *)

(** ** Strings *)

Lemma starts_with_iff (t s : string) :
  Str.starts_with t s = true <-> exists r, s = (t ++ r)%string.
Proof.
  revert s; induction t as [|a t IH]; intros s; simpl.
  - split; [intros _; now exists s | reflexivity].
  - destruct s as [|b s].
    + split; [discriminate | intros [r Hr]; discriminate].
    + rewrite andb_true_iff, Ascii.eqb_eq, IH. split.
      * intros [-> [r ->]]. now exists r.
      * intros [r Hr]. injection Hr as -> ->. split; [reflexivity | now exists r].
Qed.

Lemma includes_iff (s t : string) :
  Str.includes s t = true <-> Spec.Contains s t.
Proof.
  unfold Spec.Contains. induction s as [|c s IH].
  - simpl. destruct (Str.starts_with t EmptyString) eqn:E.
    + split; [intros _ | reflexivity].
      apply starts_with_iff in E as [r Hr]. exists EmptyString, r. exact Hr.
    + split; [discriminate |].
      intros [a [b Hab]]. destruct a; simpl in Hab; [|discriminate].
      assert (Str.starts_with t EmptyString = true) by (apply starts_with_iff; now exists b).
      congruence.
  - cbn [Str.includes]. destruct (Str.starts_with t (String c s)) eqn:E.
    + split; [intros _ | reflexivity].
      apply starts_with_iff in E as [r Hr]. exists EmptyString, r. exact Hr.
    + rewrite IH. split.
      * intros [a [b Hab]]. exists (String c a), b. simpl. now rewrite Hab.
      * intros [a [b Hab]]. destruct a as [|c' a]; simpl in Hab.
        -- assert (Str.starts_with t (String c s) = true)
             by (apply starts_with_iff; now exists b).
           congruence.
        -- injection Hab as _ ->. now exists a, b.
Qed.

Lemma collapse_app (st : bool) (a b : string) :
  Str.collapse st (a ++ b) = (Str.collapse st a ++ Str.collapse (Str.ends_ws st a) b)%string.
Proof.
  revert st; induction a as [|c a IH]; intros st; simpl; [reflexivity|].
  destruct (Str.is_ws c); [destruct st|]; simpl; now rewrite IH.
Qed.

(** ** Arrays *)

Lemma firstn_plus {A : Type} (n m : nat) (l : list A) :
  firstn (n + m) l = (firstn n l ++ firstn m (skipn n l))%list.
Proof.
  revert l; induction n as [|n IH]; intros l; [reflexivity|].
  destruct l as [|x l]; simpl; [now rewrite firstn_nil | now rewrite IH].
Qed.

Lemma slice_range {A : Type} (l : list A) (a b : Z) :
  0 <= a <= b ->
  Arr.slice l a b = firstn (Z.to_nat b - Z.to_nat a) (skipn (Z.to_nat a) l).
Proof.
  intros Hab. unfold Arr.slice, Arr.rel_index.
  destruct (Z.ltb_spec a 0); [lia|]. destruct (Z.ltb_spec b 0); [lia|].
  set (L := Z.of_nat (List.length l)).
  destruct (Z.le_ge_cases a L) as [HaL|HaL].
  - rewrite (Z.min_l a L) by assumption.
    destruct (Z.le_ge_cases b L) as [HbL|HbL].
    + rewrite (Z.min_l b L) by assumption. f_equal. lia.
    + rewrite (Z.min_r b L) by assumption.
      rewrite !firstn_all2; try reflexivity; rewrite length_skipn; unfold L in *; lia.
  - rewrite (Z.min_r a L), (Z.min_r b L) by lia.
    rewrite !skipn_all2 by (unfold L in *; lia). now rewrite !firstn_nil.
Qed.

Lemma slice_from_0 {A : Type} (l : list A) (n : Z) :
  0 <= n -> Arr.slice l 0 n = firstn (Z.to_nat n) l.
Proof.
  intros Hn. rewrite slice_range by lia.
  change (Z.to_nat 0) with 0%nat. now rewrite Nat.sub_0_r.
Qed.

Lemma slice_adjacent {A : Type} (l : list A) (a b : Z) :
  0 <= a <= b ->
  (Arr.slice l 0 a ++ Arr.slice l a b)%list = Arr.slice l 0 b.
Proof.
  intros Hab. rewrite !slice_from_0 by lia. rewrite slice_range by lia.
  replace (Z.to_nat b) with (Z.to_nat a + (Z.to_nat b - Z.to_nat a))%nat at 2 by lia.
  now rewrite firstn_plus.
Qed.

Lemma slice_chain {A : Type} (l : list A) (a b c : Z) :
  0 <= a <= b -> b <= c ->
  (Arr.slice l a b ++ Arr.slice l b c)%list = Arr.slice l a c.
Proof.
  intros Hab Hbc. rewrite !slice_range by lia.
  replace (Z.to_nat c - Z.to_nat a)%nat
    with ((Z.to_nat b - Z.to_nat a) + (Z.to_nat c - Z.to_nat b))%nat by lia.
  rewrite firstn_plus, skipn_skipn.
  now replace (Z.to_nat b - Z.to_nat a + Z.to_nat a)%nat with (Z.to_nat b) by lia.
Qed.

Lemma slice_len {A : Type} (l : list A) (a b : Z) :
  0 <= a <= b ->
  Arr.len (Arr.slice l a b) = Z.min b (Arr.len l) - Z.min a (Arr.len l).
Proof.
  intros Hab. rewrite slice_range by lia. unfold Arr.len.
  rewrite length_firstn, length_skipn. lia.
Qed.

Lemma slice_exhausted {A : Type} (l : list A) (a b : Z) :
  0 <= a <= b -> Arr.len l <= a -> Arr.slice l a b = [].
Proof.
  intros Hab Hl. rewrite slice_range by lia.
  rewrite skipn_all2 by (unfold Arr.len in Hl; lia). apply firstn_nil.
Qed.

Lemma len_app {A : Type} (l1 l2 : list A) :
  Arr.len (l1 ++ l2) = Arr.len l1 + Arr.len l2.
Proof. unfold Arr.len. rewrite length_app. lia. Qed.

Lemma len_map {A B : Type} (f : A -> B) (l : list A) :
  Arr.len (map f l) = Arr.len l.
Proof. unfold Arr.len. now rewrite length_map. Qed.

(** ** Subsequences *)

Lemma subsequence_refl {A : Type} (l : list A) : Spec.Subsequence l l.
Proof. induction l; constructor; assumption. Qed.

Lemma filter_subsequence {A : Type} (p : A -> bool) (l : list A) :
  Spec.Subsequence (filter p l) l.
Proof.
  induction l as [|x l IH]; simpl; [constructor|].
  destruct (p x); constructor; assumption.
Qed.

(** ** The heap *)

Lemma push_last {A : Type} (pre : list (list A)) (acc : list A) (x : A) :
  push (pre ++ [acc]) (List.length pre) x = (pre ++ [acc ++ [x]])%list.
Proof. induction pre as [|a pre IH]; simpl; [reflexivity | now rewrite IH]. Qed.

Lemma nth_before_last {A : Type} (pre : list (list A)) (acc : list A) (n : nat) :
  (n < List.length pre)%nat -> nth n (pre ++ [acc]) [] = nth n pre [].
Proof. intros Hn. now rewrite app_nth1. Qed.

Lemma nth_last {A : Type} (pre : list (list A)) (acc : list A) :
  nth (List.length pre) (pre ++ [acc]) [] = acc.
Proof. rewrite app_nth2 by lia. now rewrite Nat.sub_diag. Qed.

(** ** Running statements *)

Ltac js_unfold :=
  unfold exec, bind, modify, ret, throw, get_state in *; cbn beta iota in *.

Lemma strict_eq_some (x s : string) : strict_eq (Some x) s = String.eqb x s.
Proof. reflexivity. Qed.

(** ** The filter (C1) *)

Section FilterProps.
Context `{DataJs}.
Variables (c : Spec.FilterCriteria) (fd : FormData).
Hypothesis Hfd : Spec.carries fd c.

Lemma genre_loop_existsb (g : string) (gs : list string) (m : bool) :
  Scripts.genre_loop (Some g) gs m = (m || existsb (String.eqb g) gs)%bool.
Proof.
  revert m; induction gs as [|x gs IH]; intros m; simpl.
  - now rewrite orb_false_r.
  - destruct m; [reflexivity|]. rewrite IH. now destruct (String.eqb g x).
Qed.

Lemma book_passes_satisfies (book : Book.t) (s : State) :
  Scripts.book_passes (Obj.fromEntries fd) book s = (Normal (Spec.satisfies c book), s).
Proof.
  destruct Hfd as (Hg & Ha & Ht).
  unfold Scripts.book_passes, Spec.satisfies. rewrite Hg, Ha, Ht.
  rewrite genre_loop_existsb, !strict_eq_some. unfold ret.
  apply (f_equal (fun b : bool => (Normal b, s))).
  repeat match goal with |- context [String.eqb ?a ?b] => destruct (String.eqb a b) end;
    repeat match goal with |- context [existsb ?f ?l] => destruct (existsb f l) end;
    repeat match goal with |- context [Str.includes ?a ?b] => destruct (Str.includes a b) end;
    reflexivity.
Qed.

Lemma filter_callback_satisfies (book : Book.t) (s : State) :
  Part000.filter_callback (Obj.fromEntries fd) book s = (Normal (Spec.satisfies c book), s).
Proof.
  destruct Hfd as (Hg & Ha & Ht).
  unfold Part000.filter_callback, Spec.satisfies. rewrite Hg, Ha, Ht.
  reflexivity.
Qed.

Lemma filter_loop_filter (bs : list Book.t) :
  forall (pre : list (list Book.t)) (acc : list Book.t) (p : Z) (m : Ref) (d : Dom),
    Scripts.filter_loop (Obj.fromEntries fd) (List.length pre) bs
      {| heap := pre ++ [acc]; page := p; matches := m; dom := d |}
    = (Normal tt,
       {| heap := pre ++ [acc ++ filter (Spec.satisfies c) bs];
          page := p; matches := m; dom := d |}).
Proof.
  induction bs as [|b bs IH]; intros pre acc p m d.
  - simpl. unfold ret. now rewrite app_nil_r.
  - cbn [Scripts.filter_loop filter]. unfold bind at 1.
    rewrite book_passes_satisfies.
    destruct (Spec.satisfies c b); unfold bind at 1; cbn.
    + unfold with_heap; cbn [heap page matches dom].
      rewrite push_last, IH. now rewrite <- app_assoc.
    + apply IH.
Qed.

Lemma inline_filter_filter (s : State) :
  Scripts.inline_filter (Obj.fromEntries fd) s
  = (Normal (List.length (heap s)),
     with_heap (fun h => (h ++ [Spec.filter_spec books c])%list) s).
Proof.
  destruct s as [h p m d]. unfold Scripts.inline_filter. js_unfold. cbn.
  rewrite (filter_loop_filter books h [] p m d). reflexivity.
Qed.

Lemma array_filter_filter (bs : list Book.t) (s : State) :
  Part000.array_filter (Part000.filter_callback (Obj.fromEntries fd)) bs s
  = (Normal (filter (Spec.satisfies c) bs), s).
Proof.
  induction bs as [|b bs IH]; [reflexivity|].
  cbn [Part000.array_filter filter]. unfold bind at 1.
  rewrite filter_callback_satisfies. unfold bind at 1. rewrite IH. reflexivity.
Qed.

Lemma satisfies_iff (r : Book.t) :
  Spec.satisfies c r = true
  <-> Spec.genreMatch c r /\ Spec.authorMatch c r /\ Spec.titleMatch c r.
Proof.
  unfold Spec.satisfies, Spec.genreMatch, Spec.authorMatch, Spec.titleMatch.
  rewrite !andb_true_iff, !orb_true_iff, !String.eqb_eq, includes_iff.
  assert (E : existsb (String.eqb (Spec.genre c)) (Book.genres r) = true
              <-> In (Spec.genre c) (Book.genres r)).
  { rewrite existsb_exists. split.
    - intros [x [Hin Hx]]. apply String.eqb_eq in Hx. now subst.
    - intros Hin. exists (Spec.genre c). split; [assumption | apply String.eqb_refl]. }
  rewrite E. tauto.
Qed.

End FilterProps.

(** C1.  Whatever the catalog and the criteria, both filters (the loop of
    scripts.js that fills a new array, and [filterBooks] of part_000) return
    the books for which the genre, author and title predicates all hold, in
    catalog order: a subsequence of the catalog. *)
Theorem C1_filter_returns_matching_subsequence :
  forall (D : DataJs) (c : Spec.FilterCriteria) (fd : FormData) (s : State),
    Spec.carries fd c ->
    let result := Spec.filter_spec books c in
    Scripts.inline_filter (Obj.fromEntries fd) s
      = (Normal (List.length (heap s)), with_heap (fun h => (h ++ [result])%list) s)
    /\ Part000.filterBooks (Obj.fromEntries fd) s = (Normal result, s)
    /\ (forall r : Book.t,
          In r result
          <-> In r books
              /\ Spec.genreMatch c r /\ Spec.authorMatch c r /\ Spec.titleMatch c r)
    /\ Spec.Subsequence result books.
Proof.
  intros D c fd s Hfd result. repeat split.
  - now apply inline_filter_filter.
  - now apply array_filter_filter.
  - unfold result, Spec.filter_spec in H. apply filter_In in H. tauto.
  - unfold result, Spec.filter_spec in H. apply filter_In in H.
    destruct H as [_ H]. apply (proj1 (satisfies_iff c r)) in H. tauto.
  - unfold result, Spec.filter_spec in H. apply filter_In in H.
    destruct H as [_ H]. apply (proj1 (satisfies_iff c r)) in H. tauto.
  - unfold result, Spec.filter_spec in H. apply filter_In in H.
    destruct H as [_ H]. apply (proj1 (satisfies_iff c r)) in H. tauto.
  - intros (Hin & Hrest). apply filter_In. split; [assumption|].
    now apply satisfies_iff.
  - apply filter_subsequence.
Qed.

Lemma C1_filter_witness :
  Spec.carries [("title", "DR"); ("genre", "g1"); ("author", "any")]%string
    {| Spec.genre := "g1"; Spec.author := "any"; Spec.title := "DR" |}
  /\ @Part000.filterBooks Demo.data
       (Obj.fromEntries [("title", "DR"); ("genre", "g1"); ("author", "any")]%string)
       Demo.painted
     = (Normal [Demo.dracula], Demo.painted).
Proof.
  assert (Hc : Spec.carries [("title", "DR"); ("genre", "g1"); ("author", "any")]%string
                 {| Spec.genre := "g1"; Spec.author := "any"; Spec.title := "DR" |})
    by (repeat split; reflexivity).
  split; [exact Hc|].
  exact (proj1 (proj2 (C1_filter_returns_matching_subsequence Demo.data _ _ Demo.painted Hc))).
Defined.

(** ** The search form of scripts.js *)

Section ScriptsSubmit.
Context `{DataJs}.

(** Whatever the form holds, the loop only touches the array it fills. *)
Lemma filter_loop_frame (filters : Obj.t) (bs : list Book.t) :
  forall (pre : list (list Book.t)) (acc : list Book.t) (p : Z) (m : Ref) (d : Dom),
  exists (comp : Completion unit) (acc' : list Book.t),
    Scripts.filter_loop filters (List.length pre) bs
      {| heap := pre ++ [acc]; page := p; matches := m; dom := d |}
    = (comp, {| heap := pre ++ [acc']; page := p; matches := m; dom := d |}).
Proof.
  induction bs as [|b bs IH]; intros pre acc p m d.
  - exists (Normal tt), acc. reflexivity.
  - cbn [Scripts.filter_loop]. unfold bind at 1. unfold Scripts.book_passes.
    destruct (Obj.get filters "title") as [t|].
    + unfold ret at 1.
      match goal with |- context [if ?b then _ else _] => destruct b end;
        unfold bind at 1; cbn.
      * unfold with_heap; cbn [heap page matches dom]. rewrite push_last. apply IH.
      * apply IH.
    + exists (Abrupt TypeError), acc. reflexivity.
Qed.

Lemma inline_filter_frame (filters : Obj.t) (s : State) :
  exists (comp : Completion nat) (acc : list Book.t),
    Scripts.inline_filter filters s = (comp, with_heap (fun h => (h ++ [acc])%list) s)
    /\ (forall r, comp = Normal r -> r = List.length (heap s)).
Proof.
  destruct s as [h p m d].
  destruct (filter_loop_frame filters books h [] p m d) as (comp & acc & E).
  exists (match comp with Normal _ => Normal (List.length h) | Abrupt e => Abrupt e end), acc.
  split.
  - unfold Scripts.inline_filter. js_unfold. unfold with_heap. cbn. rewrite E.
    destruct comp as [[]|e]; reflexivity.
  - destruct comp; intros r Hr; [cbn; congruence | discriminate].
Qed.

Lemma repaint_returns (r : nat) (s : State) :
  Scripts.repaint r s = (Normal tt, exec (Scripts.repaint r) s).
Proof. reflexivity. Qed.

Lemma repaint_state (r : nat) (s : State) :
  let s' := exec (Scripts.repaint r) s in
  let R := nth r (heap s) [] in
  heap s' = heap s
  /\ page s' = 1
  /\ matches s' = Allocated r
  /\ items (view (dom s')) = map Scripts.inline_preview (Arr.slice R 0 BOOKS_PER_PAGE)
  /\ message_show (view (dom s')) = (Arr.len R <? 1)
  /\ disabled (button (view (dom s'))) = (Arr.len R - 1 * BOOKS_PER_PAGE <? 1)
  /\ button_html (button (view (dom s')))
     = Common.show_more_html (Z.max (Arr.len R - 1 * BOOKS_PER_PAGE) 0)
  /\ search_overlay_open (overlays (dom s')) = false
  /\ detail (dom s') = detail (dom s)
  /\ theme (dom s') = theme (dom s).
Proof.
  destruct s as [h p m d]. repeat split. cbn [heap].
  set (X := Arr.len (nth r h []) - 1 * BOOKS_PER_PAGE).
  transitivity (Common.show_more_html (if Z.gtb X 0 then X else 0)); [reflexivity|].
  f_equal. destruct (Z.gtb_spec X 0); lia.
Qed.

(** A submission that carries criteria runs to its end on the filtered
    catalog. *)
Lemma submit_runs_repaint (c : Spec.FilterCriteria) (fd : FormData) (s : State) :
  Spec.carries fd c ->
  Scripts.on_search_form_submit fd s
  = (Normal tt,
     exec (Scripts.repaint (List.length (heap s)))
          (with_heap (fun h => (h ++ [Spec.filter_spec books c])%list) s)).
Proof.
  intros Hfd. unfold Scripts.on_search_form_submit. unfold bind at 1.
  rewrite (inline_filter_filter c fd Hfd). reflexivity.
Qed.

End ScriptsSubmit.

(** ** "Show more" *)

Section ShowMore.
Context `{DataJs}.

Lemma scripts_show_more (s : State) :
  Scripts.on_list_button_click s
  = (Normal tt,
     with_page (page s + 1)
       (with_dom (with_view (with_items (fun old =>
          (old ++ map Scripts.inline_preview
                    (Arr.slice (deref (heap s) (matches s))
                               (page s * BOOKS_PER_PAGE)
                               ((page s + 1) * BOOKS_PER_PAGE)))%list))) s)).
Proof. destruct s; reflexivity. Qed.

Lemma part000_show_more (s : State) :
  let M := deref (heap s) (matches s) in
  let remaining := Arr.len M - (page s + 1) * BOOKS_PER_PAGE in
  Part000.on_list_button_click s
  = (Normal tt,
     with_dom (with_view (with_button
        {| disabled := (remaining <=? 0);
           button_html :=
             Common.show_more_html (if remaining >? 0 then remaining else 0) |}))
       (with_page (page s + 1)
          (with_dom (with_view (with_items (fun old =>
             (old ++ map Common.createBookPreviewElement
                       (Arr.slice M (page s * BOOKS_PER_PAGE)
                                    ((page s + 1) * BOOKS_PER_PAGE)))%list))) s))).
Proof. destruct s; reflexivity. Qed.

(** The state after [n] presses in a row, part_000. *)
Lemma part000_show_more_n (n : nat) :
  forall s : State,
    0 <= BOOKS_PER_PAGE -> 0 <= page s ->
    let s' := Part000.run (repeat ListButtonClick n) s in
    let M := deref (heap s) (matches s) in
    page s' = page s + Z.of_nat n
    /\ heap s' = heap s /\ matches s' = matches s
    /\ items (view (dom s'))
       = (items (view (dom s))
          ++ map Common.createBookPreviewElement
               (Arr.slice M (page s * BOOKS_PER_PAGE)
                            ((page s + Z.of_nat n) * BOOKS_PER_PAGE)))%list.
Proof.
  induction n as [|n IH]; intros s HB Hp.
  - cbn [repeat Part000.run fold_left]. rewrite Z.add_0_r. repeat split.
    rewrite slice_range by nia. rewrite Nat.sub_diag. cbn. now rewrite app_nil_r.
  - cbn [repeat Part000.run fold_left].
    change (fold_left Part000.step (repeat ListButtonClick n) ?x)
      with (Part000.run (repeat ListButtonClick n) x).
    set (s1 := Part000.step s ListButtonClick).
    assert (E1 : page s1 = page s + 1 /\ heap s1 = heap s /\ matches s1 = matches s
                 /\ items (view (dom s1))
                    = (items (view (dom s))
                       ++ map Common.createBookPreviewElement
                            (Arr.slice (deref (heap s) (matches s))
                               (page s * BOOKS_PER_PAGE)
                               ((page s + 1) * BOOKS_PER_PAGE)))%list).
    { unfold s1, Part000.step, exec. cbn [Part000.handler].
      rewrite part000_show_more. destruct s; repeat split. }
    destruct E1 as (Ep & Eh & Em & Ei).
    specialize (IH s1 HB ltac:(lia)). cbv zeta in IH.
    destruct IH as (IHp & IHh & IHm & IHi).
    rewrite IHp, IHh, IHm, IHi, Ep, Eh, Em, Ei. repeat split; try lia.
    rewrite <- app_assoc, <- map_app. do 2 f_equal.
    rewrite slice_chain by nia. f_equal. lia.
Qed.

(** part_000, pressed when nothing is left: nothing is appended, nothing
    is thrown, the page number still moves on and the button shows 0 and is
    disabled. *)
Lemma part000_show_more_exhausted (s : State) :
  0 <= BOOKS_PER_PAGE -> 0 <= page s ->
  Arr.len (deref (heap s) (matches s)) <= page s * BOOKS_PER_PAGE ->
  let s' := exec Part000.on_list_button_click s in
  fst (Part000.on_list_button_click s) = Normal tt
  /\ items (view (dom s')) = items (view (dom s))
  /\ page s' = page s + 1
  /\ button (view (dom s'))
     = {| disabled := true; button_html := Common.show_more_html 0 |}.
Proof.
  intros HB Hp Hl s'. unfold s', exec. rewrite part000_show_more. cbn [fst snd].
  destruct s as [h p m d];
    cbn [heap page matches dom view items button with_dom with_view with_items
         with_button with_page] in *.
  rewrite slice_exhausted by nia. cbn [map]. rewrite app_nil_r.
  repeat split.
  destruct (Z.leb_spec (Arr.len (deref h m) - (p + 1) * BOOKS_PER_PAGE) 0); [|nia].
  destruct (Z.gtb_spec (Arr.len (deref h m) - (p + 1) * BOOKS_PER_PAGE) 0); [nia|].
  reflexivity.
Qed.

End ShowMore.

(** ** The page invariant (C4) *)

Section Invariant.
Context `{DataJs}.
Hypothesis page_size_nonneg : 0 <= BOOKS_PER_PAGE.

Lemma len_nonneg {A : Type} (l : list A) : 0 <= Arr.len l.
Proof. unfold Arr.len. lia. Qed.

Lemma deref_grow (h : list (list Book.t)) (acc : list Book.t) (r : Ref) :
  valid_ref h r -> deref (h ++ [acc]) r = deref h r.
Proof. destruct r as [|n]; simpl; [reflexivity | apply nth_before_last]. Qed.

Lemma valid_ref_grow (h : list (list Book.t)) (acc : list Book.t) (r : Ref) :
  valid_ref h r -> valid_ref (h ++ [acc]) r.
Proof. destruct r as [|n]; simpl; [trivial | rewrite length_app; simpl; lia]. Qed.

Lemma invariant_initial (d0 : Dom) :
  items (view d0) = [] ->
  page_invariant (exec Common.initial_paint (Common.initial_state d0)).
Proof.
  intros Hd. unfold page_invariant, Spec.rendered_count_ok. cbn.
  rewrite Hd. cbn [app]. rewrite len_map, slice_len by lia.
  pose proof (len_nonneg books). repeat split; lia.
Qed.

Lemma invariant_append (s : State) (mk : Book.t -> Element) :
  page_invariant s ->
  page_invariant
    (with_page (page s + 1)
       (with_dom (with_view (with_items (fun old =>
          (old ++ map mk
                    (Arr.slice (deref (heap s) (matches s))
                               (page s * BOOKS_PER_PAGE)
                               ((page s + 1) * BOOKS_PER_PAGE)))%list))) s)).
Proof.
  intros (Hp & Hv & Hc). unfold page_invariant, Spec.rendered_count_ok in *.
  destruct s as [h p m d]; cbn [heap page matches dom with_page with_dom with_view
    with_items view items] in *.
  repeat split; [lia | assumption |].
  rewrite len_app, len_map, slice_len by nia. rewrite Hc.
  pose proof (len_nonneg (deref h m)). nia.
Qed.

Lemma invariant_repaint (r : nat) (s : State) :
  (r < List.length (heap s))%nat ->
  page_invariant (exec (Scripts.repaint r) s).
Proof.
  intros Hr. pose proof (repaint_state r s) as R. cbv zeta in R.
  destruct R as (Eh & Ep & Em & Ei & _).
  unfold page_invariant, Spec.rendered_count_ok.
  rewrite Ep, Em, Eh, Ei. cbn [deref valid_ref]. repeat split; [lia | assumption |].
  rewrite len_map, slice_len by lia.
  pose proof (len_nonneg (nth r (heap s) [])). lia.
Qed.

Lemma invariant_scripts_submit (fd : FormData) (s : State) :
  page_invariant s -> page_invariant (exec (Scripts.on_search_form_submit fd) s).
Proof.
  intros (Hp & Hv & Hc).
  destruct (inline_filter_frame (Obj.fromEntries fd) s) as (comp & acc & E & Hr).
  unfold exec, Scripts.on_search_form_submit, bind. rewrite E.
  destruct comp as [r|e].
  - rewrite (Hr r eq_refl). rewrite repaint_returns. cbn [snd].
    apply invariant_repaint. destruct s; cbn. rewrite length_app. cbn. lia.
  - cbn [snd]. unfold page_invariant, Spec.rendered_count_ok in *.
    destruct s as [h p m d]; cbn [heap page matches dom with_heap] in *.
    rewrite deref_grow by assumption. repeat split; try assumption.
    now apply valid_ref_grow.
Qed.

Lemma invariant_detail (x : Detail) (s : State) :
  page_invariant s -> page_invariant (with_dom (with_detail x) s).
Proof. destruct s; exact (fun H => H). Qed.

Lemma invariant_scripts_step (s : State) (e : Event) :
  page_invariant s -> page_invariant (Scripts.step s e).
Proof.
  intros Hs. destruct e; unfold Scripts.step; cbn [Scripts.handler];
    try exact Hs.
  - now apply invariant_scripts_submit.
  - unfold exec. rewrite scripts_show_more. now apply invariant_append.
  - unfold exec, Scripts.on_list_items_click.
    destruct (Scripts.path_loop path None); [now apply invariant_detail | exact Hs].
Qed.

Lemma invariant_part000_step (s : State) (e : Event) :
  page_invariant s -> page_invariant (Part000.step s e).
Proof.
  intros Hs. destruct e; unfold Part000.step; cbn [Part000.handler];
    try exact Hs; try (destruct s; exact Hs).
  - unfold exec. rewrite part000_show_more. cbn [snd].
    apply (invariant_append s Common.createBookPreviewElement) in Hs.
    destruct s; exact Hs.
  - unfold exec, Part000.on_list_items_click.
    destruct (truthy _); [|exact Hs].
    destruct (find _ books); [|exact Hs].
    destruct s; exact Hs.
Qed.

Lemma invariant_scripts_run (es : list Event) :
  forall s, page_invariant s -> page_invariant (Scripts.run es s).
Proof.
  induction es as [|e es IH]; intros s Hs; [exact Hs|].
  apply IH. now apply invariant_scripts_step.
Qed.

Lemma invariant_part000_run (es : list Event) :
  forall s, page_invariant s -> page_invariant (Part000.run es s).
Proof.
  induction es as [|e es IH]; intros s Hs; [exact Hs|].
  apply IH. now apply invariant_part000_step.
Qed.

Lemma updateBookList_count (s : State) :
  page s = 1 ->
  Spec.rendered_count_ok (exec (Part000.updateBookList (deref (heap s) (matches s))) s).
Proof.
  intros Hp. unfold Spec.rendered_count_ok. destruct s as [h p m d].
  cbn [page] in Hp. subst p. cbn.
  rewrite len_map, slice_len by lia.
  pose proof (len_nonneg (deref h m)). lia.
Qed.

End Invariant.

(** C4.  With a page size that is not negative and a list container that
    starts empty, after the first paint and after any sequence of events the
    list container holds min(BOOKS_PER_PAGE * page, matches.length) previews;
    this holds for the handlers of scripts.js and for those of part_000, and
    for [updateBookList] when it repaints page 1 of the current matches. *)
Theorem C4_rendered_count_invariant :
  forall (D : DataJs) (d0 : Dom) (es : list Event),
    0 <= BOOKS_PER_PAGE ->
    items (view d0) = [] ->
    let s0 := exec Common.initial_paint (Common.initial_state d0) in
    Spec.rendered_count_ok s0
    /\ Spec.rendered_count_ok (Scripts.run es s0)
    /\ Spec.rendered_count_ok (Part000.run es s0)
    /\ (forall s : State,
          page s = 1 ->
          Spec.rendered_count_ok
            (exec (Part000.updateBookList (deref (heap s) (matches s))) s)).
Proof.
  intros D d0 es HB Hd s0.
  pose proof (invariant_initial HB d0 Hd) as H0. fold s0 in H0.
  repeat split.
  - apply H0.
  - now apply invariant_scripts_run.
  - now apply invariant_part000_run.
  - intros s Hp. now apply updateBookList_count.
Qed.

Lemma C4_rendered_count_witness :
  0 <= @BOOKS_PER_PAGE Demo.data
  /\ items (view Demo.page0) = []
  /\ @Spec.rendered_count_ok Demo.data
       (@Scripts.run Demo.data
          [SearchFormSubmit Demo.any_form; ListButtonClick; ListButtonClick]
          Demo.painted).
Proof.
  assert (HB : 0 <= @BOOKS_PER_PAGE Demo.data) by (cbn; lia).
  split; [exact HB|]. split; [reflexivity|].
  exact (proj1 (proj2 (C4_rendered_count_invariant Demo.data Demo.page0
    [SearchFormSubmit Demo.any_form; ListButtonClick; ListButtonClick] HB eq_refl))).
Defined.

(** ** Pagination state on a search (C2) *)

Section SubmitProps.
Context `{DataJs}.

(** scripts.js: a submission sets [page] to 1 and binds [matches] to a new
    array holding the filter result; every array that existed before,
    the one [matches] was bound to among them, is left as it was. *)
Lemma scripts_submit_resets (c : Spec.FilterCriteria) (fd : FormData) (s : State) :
  Spec.carries fd c ->
  let s' := exec (Scripts.on_search_form_submit fd) s in
  returns (Scripts.on_search_form_submit fd) s
  /\ page s' = 1
  /\ matches s' = Allocated (List.length (heap s))
  /\ ~ valid_ref (heap s) (matches s')
  /\ deref (heap s') (matches s') = Spec.filter_spec books c
  /\ (forall r, valid_ref (heap s) r -> deref (heap s') r = deref (heap s) r).
Proof.
  intros Hfd s'. unfold s', exec, returns.
  rewrite (submit_runs_repaint c fd s Hfd). cbn [fst snd].
  pose proof (repaint_state (List.length (heap s))
                (with_heap (fun h => (h ++ [Spec.filter_spec books c])%list) s)) as R.
  cbv zeta in R. destruct R as (Eh & Ep & Em & _).
  split; [now exists tt|]. rewrite Ep, Em, Eh.
  destruct s as [h p m d]; cbn [heap with_heap valid_ref deref].
  repeat split; try lia.
  - apply nth_last.
  - intros r Hr. now apply deref_grow.
Qed.

(** scripts.js: the empty-state message follows the result, and the list
    shows the first page of the result (nothing when it is empty). *)
Lemma scripts_submit_empty_state (c : Spec.FilterCriteria) (fd : FormData) (s : State) :
  Spec.carries fd c ->
  let s' := exec (Scripts.on_search_form_submit fd) s in
  let result := Spec.filter_spec books c in
  returns (Scripts.on_search_form_submit fd) s
  /\ (result = [] -> message_show (view (dom s')) = true /\ items (view (dom s')) = [])
  /\ (result <> [] -> message_show (view (dom s')) = false)
  /\ items (view (dom s'))
     = map Scripts.inline_preview (Arr.slice result 0 BOOKS_PER_PAGE).
Proof.
  intros Hfd s' result. unfold s', exec, returns.
  rewrite (submit_runs_repaint c fd s Hfd). cbn [fst snd].
  pose proof (repaint_state (List.length (heap s))
                (with_heap (fun h => (h ++ [Spec.filter_spec books c])%list) s)) as R.
  cbv zeta in R. destruct R as (_ & _ & _ & Ei & Emsg & _).
  assert (En : nth (List.length (heap s))
                 (heap (with_heap (fun h => (h ++ [Spec.filter_spec books c])%list) s)) []
               = result).
  { destruct s as [h p m d]; cbn [heap with_heap]. apply nth_last. }
  rewrite En in Ei, Emsg. rewrite Ei, Emsg.
  split; [now exists tt|]. split; [|split].
  - intros E. rewrite E. split; [reflexivity|].
    unfold Arr.slice. cbn [List.length]. now rewrite skipn_nil, firstn_nil.
  - intros Hne. destruct result as [|b l]; [contradiction|].
    unfold Arr.len. cbn [List.length]. apply Z.ltb_ge. lia.
  - reflexivity.
Qed.

(** part_000: the listener on the search form leaves the pagination state
    and the list area alone. *)
Lemma part000_submit_frame (fd : FormData) (s : State) :
  let s' := exec (Part000.on_search_form_submit fd) s in
  page s' = page s /\ matches s' = matches s /\ heap s' = heap s
  /\ view (dom s') = view (dom s).
Proof. destruct s; repeat split. Qed.

(** Neither file listens to the settings form. *)
Lemma settings_submit_unheard (fd : FormData) (s : State) :
  Scripts.step s (SettingsFormSubmit fd) = s
  /\ Part000.step s (SettingsFormSubmit fd) = s.
Proof. split; reflexivity. Qed.

(** [populateDropdown], called as its comment describes, adds the default
    option and then one option per entry, in order. *)
Lemma populateDropdown_options (options : Obj.t) (label : string) (s : State) :
  let s' := exec (Common.populateDropdown Common.SearchGenres options label) s in
  search_genres (dropdowns (dom s'))
  = (search_genres (dropdowns (dom s))
     ++ {| value := "any"; innerText := label |}
        :: map (fun e => {| value := fst e; innerText := snd e |}) options)%list.
Proof. destruct s; reflexivity. Qed.

End SubmitProps.

(** C2, on part_000.  With the demo catalog, page 2 shown, submitting a
    title that matches no book leaves [page] at 2 and [matches] bound to the
    whole catalog, although the filter result for that form is empty. *)
Theorem C2_part000_submit_keeps_page_and_matches :
  let c := {| Spec.genre := "any"; Spec.author := "any"; Spec.title := "zzz" |} in
  let s := @Part000.run Demo.data [ListButtonClick] Demo.painted in
  let s' := @Part000.step Demo.data s (SearchFormSubmit Demo.no_match_form) in
  Spec.carries Demo.no_match_form c
  /\ @Spec.filter_spec Demo.data (@books Demo.data) c = []
  /\ page s = 2 /\ page s' = 2
  /\ matches s' = BooksArray
  /\ @deref Demo.data (heap s') (matches s') = [Demo.dune; Demo.emma; Demo.dracula]
  /\ List.length (items (view (dom s'))) = 3%nat.
Proof. repeat split. Qed.

(** C3, on scripts.js.  With the demo catalog (3 books, 2 per page), after a
    search that keeps every book the button reads (1); one press of "show
    more" appends the third preview and moves to page 2, but the button
    still reads (1) and stays enabled, the count left being 0. *)
Theorem C3_scripts_show_more_keeps_stale_count :
  let s := @Scripts.run Demo.data [SearchFormSubmit Demo.any_form] Demo.painted in
  let s' := @Scripts.step Demo.data s ListButtonClick in
  page s' = 2
  /\ List.length (items (view (dom s'))) = 3%nat
  /\ Arr.len (@deref Demo.data (heap s') (matches s')) - page s' * @BOOKS_PER_PAGE Demo.data < 0
  /\ button (view (dom s')) = button (view (dom s))
  /\ button_html (button (view (dom s'))) = Common.show_more_html 1
  /\ button_html (button (view (dom s'))) <> Common.show_more_html 0
  /\ disabled (button (view (dom s'))) = false.
Proof.
  repeat split. intros E. vm_compute in E. discriminate E.
Qed.

(** C5.  Submitting the settings form with theme night, the overlay being
    open and the day colours set, changes nothing in either file: the
    colours stay and the overlay stays open.  In part_000 the theme listener
    sits on the search form instead, where it sets a property [open] on the
    form and leaves the settings overlay open. *)
Theorem C5_settings_submit_applies_nothing :
  let s := with_dom (with_overlays (with_settings_overlay_open true)) Demo.painted in
  let night := {| color_dark := "255, 255, 255"; color_light := "10, 10, 20" |}%string in
  theme (dom (exec (Common.applyTheme (Some "night"%string)) s)) = night
  /\ @Scripts.step Demo.data s (SettingsFormSubmit Demo.night_form) = s
  /\ @Part000.step Demo.data s (SettingsFormSubmit Demo.night_form) = s
  /\ theme (dom s) <> night
  /\ settings_overlay_open (overlays (dom s)) = true
  /\ (let s' := @Part000.step Demo.data s (SearchFormSubmit Demo.night_form) in
      theme (dom s') = night
      /\ settings_overlay_open (overlays (dom s')) = true
      /\ search_form_open (overlays (dom s')) = Some false).
Proof.
  repeat split. intros E. vm_compute in E. discriminate E.
Qed.

(** C6, on part_000.  With the demo catalog and its first page shown,
    submitting a title that matches no book leaves the two previews in the
    list and the empty-state message hidden; [updateBookList] on the empty
    result would clear the list but never shows the message. *)
Theorem C6_part000_empty_result_not_shown :
  let c := {| Spec.genre := "any"; Spec.author := "any"; Spec.title := "zzz" |} in
  let s' := @Part000.step Demo.data Demo.painted (SearchFormSubmit Demo.no_match_form) in
  let s'' := exec (@Part000.updateBookList Demo.data []) Demo.painted in
  Spec.carries Demo.no_match_form c
  /\ @Spec.filter_spec Demo.data (@books Demo.data) c = []
  /\ List.length (items (view (dom s'))) = 2%nat
  /\ message_show (view (dom s')) = false
  /\ items (view (dom s'')) = []
  /\ message_show (view (dom s'')) = false.
Proof. repeat split. Qed.

(** C8.  Whatever ./data.js exports, the module stops at line 64: the
    expression genres`All genres` calls an object, which throws a
    TypeError before [populateDropdown] is entered; both dropdowns keep the
    options the page came with, and line 65 and the theme set-up never
    run. *)
Theorem C8_startup_throws_before_dropdowns :
  forall (D : DataJs) (d0 : Dom),
    let out := Common.startup (Common.initial_state d0) in
    fst out = Abrupt TypeError
    /\ dropdowns (dom (snd out)) = dropdowns d0
    /\ theme (dom (snd out)) = theme d0
    /\ settings_theme (dom (snd out)) = settings_theme d0.
Proof. intros D d0. repeat split. Qed.

(** ** Clicks on the list (C7, C10) *)

Section ClickProps.
Context `{DataJs}.

Lemma book_loop_find (id : string) (bs : list Book.t) :
  Scripts.book_loop (Some id) bs None = find (has_id id) bs.
Proof.
  induction bs as [|b bs IH]; [reflexivity|].
  cbn [Scripts.book_loop find strict_eq]. unfold has_id at 1.
  destruct (String.eqb id (Book.id b)); [|exact IH].
  destruct bs; reflexivity.
Qed.

Lemma path_loop_plain (inner rest : list Node) :
  Forall Spec.plain inner ->
  Scripts.path_loop (inner ++ rest) None = Scripts.path_loop rest None.
Proof.
  induction 1 as [|n inner [Hn _] _ IH]; [reflexivity|].
  cbn [app Scripts.path_loop]. rewrite Hn. exact IH.
Qed.

Lemma path_loop_some (rest : list Node) (b : Book.t) :
  Scripts.path_loop rest (Some b) = Some b.
Proof. destruct rest; reflexivity. Qed.

Lemma path_loop_click (id : string) (path : list Node) :
  Spec.ClickOn id path ->
  Scripts.path_loop path None
  = if String.eqb id Str.empty then None else find (has_id id) books.
Proof.
  intros [inner outer Hin Hout]. rewrite path_loop_plain by assumption.
  cbn [Scripts.path_loop Spec.preview_node dataset_preview truthy].
  destruct (String.eqb id Str.empty); cbn [negb].
  - rewrite <- (app_nil_r outer). now rewrite path_loop_plain.
  - rewrite book_loop_find. destruct (find (has_id id) books).
    + apply path_loop_some.
    + rewrite <- (app_nil_r outer). now rewrite path_loop_plain.
Qed.

Lemma path_loop_outside (path : list Node) :
  Spec.ClickOutside path -> Scripts.path_loop path None = None.
Proof.
  intros Hp. rewrite <- (app_nil_r path). now rewrite path_loop_plain.
Qed.

Lemma path_loop_in (path : list Node) (b : Book.t) :
  Scripts.path_loop path None = Some b -> In b books.
Proof.
  induction path as [|n path IH]; [discriminate|].
  cbn [Scripts.path_loop]. destruct (dataset_preview n) as [id|]; [|exact IH].
  destruct (truthy (Some id)); [|exact IH].
  rewrite book_loop_find. destruct (find (has_id id) books) as [b'|] eqn:E; [|exact IH].
  rewrite path_loop_some. intros [= <-]. now apply find_some in E.
Qed.

Lemma not_preview_class (n : Node) :
  Spec.plain n -> existsb (String.eqb "preview") (node_classes n) = false.
Proof.
  intros [_ Hn]. destruct (existsb _ _) eqn:E; [|reflexivity].
  apply existsb_exists in E as [x [Hx Ex]]. apply String.eqb_eq in Ex. now subst.
Qed.

Lemma closest_preview_click (id : string) (path : list Node) :
  Spec.ClickOn id path ->
  Part000.closest_preview path = Some (Spec.preview_node id).
Proof.
  intros [inner outer Hin _]. unfold Part000.closest_preview.
  induction Hin as [|n inner Hn _ IH]; [reflexivity|].
  cbn [app find]. now rewrite (not_preview_class n Hn).
Qed.

Lemma closest_preview_outside (path : list Node) :
  Spec.ClickOutside path -> Part000.closest_preview path = None.
Proof.
  unfold Part000.closest_preview. induction 1 as [|n path Hn _ IH]; [reflexivity|].
  cbn [find]. now rewrite (not_preview_class n Hn).
Qed.

Lemma find_unique (r : Book.t) (bs : list Book.t) :
  NoDup (map Book.id bs) -> In r bs -> find (has_id (Book.id r)) bs = Some r.
Proof.
  induction bs as [|b bs IH]; intros Hnd Hin; [contradiction|].
  cbn [map] in Hnd. inversion Hnd as [|? ? Hnotin Hnd']; subst.
  cbn [find]. unfold has_id at 1. destruct Hin as [->|Hin].
  - now rewrite String.eqb_refl.
  - destruct (String.eqb_spec (Book.id r) (Book.id b)) as [E|_]; [|now apply IH].
    exfalso. apply Hnotin. rewrite <- E. now apply in_map.
Qed.

Lemma find_absent (id : string) (bs : list Book.t) :
  (forall r, In r bs -> Book.id r <> id) -> find (has_id id) bs = None.
Proof.
  intros Hno. destruct (find (has_id id) bs) as [b|] eqn:E; [|reflexivity].
  apply find_some in E as [Hin Hb]. apply String.eqb_eq in Hb.
  exfalso. now apply (Hno b Hin).
Qed.

(** Both handlers, on a click inside the preview that carries [id]. *)
Lemma click_on_outcome (id : string) (path : list Node) (s : State) :
  Spec.ClickOn id path ->
  let outcome :=
    match (if String.eqb id Str.empty then None else find (has_id id) books) with
    | Some r => (Normal tt, with_dom (with_detail (Spec.detail_of r)) s)
    | None => (Normal tt, s)
    end in
  Scripts.on_list_items_click path s = outcome
  /\ Part000.on_list_items_click path s = outcome.
Proof.
  intros Hc. split.
  - unfold Scripts.on_list_items_click. rewrite (path_loop_click id path Hc).
    destruct (String.eqb id Str.empty); [reflexivity|].
    destruct (find (has_id id) books); reflexivity.
  - unfold Part000.on_list_items_click. rewrite (closest_preview_click id path Hc).
    cbn [Spec.preview_node dataset_preview truthy strict_eq].
    destruct (String.eqb id Str.empty); [reflexivity|]. cbn [negb].
    change (fun book : Book.t => String.eqb id (Book.id book)) with (has_id id).
    destruct (find (has_id id) books); reflexivity.
Qed.

Lemma click_outside_outcome (path : list Node) (s : State) :
  Spec.ClickOutside path ->
  Scripts.on_list_items_click path s = (Normal tt, s)
  /\ Part000.on_list_items_click path s = (Normal tt, s).
Proof.
  intros Hc. split.
  - unfold Scripts.on_list_items_click. now rewrite path_loop_outside.
  - unfold Part000.on_list_items_click. now rewrite closest_preview_outside.
Qed.

(** What a click can do at all, whatever the path. *)
Lemma click_cases (path : list Node) (s : State) :
  (Scripts.on_list_items_click path s = (Normal tt, s)
   \/ exists r, In r books
        /\ Scripts.on_list_items_click path s
           = (Normal tt, with_dom (with_detail (Spec.detail_of r)) s))
  /\ (Part000.on_list_items_click path s = (Normal tt, s)
      \/ exists r, In r books
           /\ Part000.on_list_items_click path s
              = (Normal tt, with_dom (with_detail (Spec.detail_of r)) s)).
Proof.
  split.
  - unfold Scripts.on_list_items_click.
    destruct (Scripts.path_loop path None) as [r|] eqn:E; [right | now left].
    exists r. split; [now apply (path_loop_in path) | reflexivity].
  - unfold Part000.on_list_items_click.
    destruct (truthy _); [|now left].
    destruct (find _ books) as [r|] eqn:E; [right | now left].
    exists r. split; [now apply find_some in E | reflexivity].
Qed.

End ClickProps.

(** C7, as stated, fails on an empty id: in a catalog whose only book has
    the empty string as id, a click on that book's preview leaves the detail
    overlay closed. *)
Lemma C7_empty_id_counterexample : ~ Spec.click_opens_detail_for_every_id.
Proof.
  intros claim.
  assert (Hnd : NoDup (map Book.id (@books Demo.data_nameless))).
  { cbn. constructor; [intros [] | constructor]. }
  assert (Hc : Spec.ClickOn (Book.id Demo.nameless) [Spec.preview_node Str.empty]).
  { apply (Spec.click_on Str.empty [] []); constructor. }
  destruct (claim Demo.data_nameless [Spec.preview_node Str.empty] Demo.nameless
              Demo.painted Hnd (or_introl eq_refl) Hc) as [E _].
  vm_compute in E. discriminate E.
Qed.

(** C7, amended.  A click inside a preview whose id is not empty is looked
    up among all books of the catalog, whatever [matches] holds: when a
    record of the catalog (ids unique) has that id, both handlers return
    with the detail overlay open on that record's image (twice), title,
    "author (year)" and description; when no record has it they return and
    change nothing.  A click inside a preview whose id is the empty string,
    and a click outside every preview, return and change nothing. *)
Theorem C7_click_opens_detail_of_clicked_id :
  forall (D : DataJs) (path : list Node) (s : State),
    (forall id : string,
        Spec.ClickOn id path ->
        id <> Str.empty ->
        (forall r : Book.t,
            NoDup (map Book.id books) -> In r books -> Book.id r = id ->
            Scripts.on_list_items_click path s
              = (Normal tt, with_dom (with_detail (Spec.detail_of r)) s)
            /\ Part000.on_list_items_click path s
               = (Normal tt, with_dom (with_detail (Spec.detail_of r)) s))
        /\ ((forall r : Book.t, In r books -> Book.id r <> id) ->
            Scripts.on_list_items_click path s = (Normal tt, s)
            /\ Part000.on_list_items_click path s = (Normal tt, s)))
    /\ (Spec.ClickOn Str.empty path ->
        Scripts.on_list_items_click path s = (Normal tt, s)
        /\ Part000.on_list_items_click path s = (Normal tt, s))
    /\ (Spec.ClickOutside path ->
        Scripts.on_list_items_click path s = (Normal tt, s)
        /\ Part000.on_list_items_click path s = (Normal tt, s)).
Proof.
  intros D path s. repeat apply conj.
  - intros id Hc Hid. pose proof (click_on_outcome id path s Hc) as O. cbv zeta in O.
    apply String.eqb_neq in Hid. rewrite Hid in O. split.
    + intros r Hnd Hin Hr. subst id. now rewrite (find_unique r books Hnd Hin) in O.
    + intros Hno. now rewrite (find_absent id books Hno) in O.
  - intros Hc. exact (click_on_outcome Str.empty path s Hc).
  - apply click_outside_outcome.
Qed.

Lemma C7_click_witness :
  let path := [ {| node_classes := ["preview__title"%string]; dataset_preview := None |};
                {| node_classes := ["preview__info"%string]; dataset_preview := None |};
                Spec.preview_node "b2";
                {| node_classes := ["list__items"%string]; dataset_preview := None |} ] in
  Spec.ClickOn "b2" path
  /\ @Scripts.on_list_items_click Demo.data path Demo.painted
     = (Normal tt, with_dom (with_detail (@Spec.detail_of Demo.data Demo.emma)) Demo.painted)
  /\ @Part000.on_list_items_click Demo.data path Demo.painted
     = (Normal tt, with_dom (with_detail (@Spec.detail_of Demo.data Demo.emma)) Demo.painted)
  /\ @Scripts.on_list_items_click Demo.data [Spec.preview_node "b9"] Demo.painted
     = (Normal tt, Demo.painted)
  /\ @Scripts.on_list_items_click Demo.data [Spec.preview_node Str.empty] Demo.painted
     = (Normal tt, Demo.painted)
  /\ @Part000.on_list_items_click Demo.data
       [{| node_classes := ["list__items"%string]; dataset_preview := None |}] Demo.painted
     = (Normal tt, Demo.painted).
Proof.
  intros path.
  assert (Hplain : forall c : string, c <> "preview"%string ->
            Spec.plain {| node_classes := [c]; dataset_preview := None |}).
  { intros c Hc. split; [reflexivity|]. intros [E|[]]. now apply Hc. }
  assert (Hc : Spec.ClickOn "b2" path).
  { apply (Spec.click_on "b2"
             [ {| node_classes := ["preview__title"%string]; dataset_preview := None |};
               {| node_classes := ["preview__info"%string]; dataset_preview := None |} ]
             [ {| node_classes := ["list__items"%string]; dataset_preview := None |} ]);
      repeat constructor; try (apply Hplain; discriminate). }
  assert (Hid : "b2"%string <> Str.empty) by discriminate.
  assert (Hnd : NoDup (map Book.id (@books Demo.data))).
  { cbn. repeat constructor; cbn; intuition discriminate. }
  assert (Hin : In Demo.emma (@books Demo.data)) by (cbn; tauto).
  split; [exact Hc|].
  destruct (C7_click_opens_detail_of_clicked_id Demo.data path Demo.painted)
    as (Hon & _ & _).
  destruct (Hon "b2"%string Hc Hid) as (Hfound & _).
  destruct (Hfound Demo.emma Hnd Hin eq_refl) as (E1 & E2).
  split; [exact E1|]. split; [exact E2|].
  destruct (C7_click_opens_detail_of_clicked_id Demo.data [Spec.preview_node "b9"] Demo.painted)
    as (Hon9 & _ & _).
  assert (Hc9 : Spec.ClickOn "b9" [Spec.preview_node "b9"])
    by (apply (Spec.click_on "b9" [] []); constructor).
  assert (Hno9 : forall r, In r (@books Demo.data) -> Book.id r <> "b9"%string).
  { intros r [<-|[<-|[<-|[]]]]; discriminate. }
  destruct (Hon9 "b9"%string Hc9 ltac:(discriminate)) as (_ & Habsent).
  split; [exact (proj1 (Habsent Hno9))|].
  destruct (C7_click_opens_detail_of_clicked_id Demo.data
              [Spec.preview_node Str.empty] Demo.painted) as (_ & Hempty & _).
  assert (Hc0 : Spec.ClickOn Str.empty [Spec.preview_node Str.empty])
    by (apply (Spec.click_on Str.empty [] []); constructor).
  split; [exact (proj1 (Hempty Hc0))|].
  destruct (C7_click_opens_detail_of_clicked_id Demo.data
              [{| node_classes := ["list__items"%string]; dataset_preview := None |}]
              Demo.painted) as (_ & _ & Hout).
  apply Hout. constructor; [apply Hplain; discriminate | constructor].
Defined.

Lemma frame_unchanged `{DataJs} (c : JS unit) (s : State) :
  c s = (Normal tt, s) -> Spec.only_detail_changes c s.
Proof.
  intros E. unfold Spec.only_detail_changes, exec. rewrite E. cbn [fst snd].
  repeat split. now left.
Qed.

Lemma frame_detail_shown `{DataJs} (c : JS unit) (s : State) (r : Book.t) :
  In r books ->
  c s = (Normal tt, with_dom (with_detail (Spec.detail_of r)) s) ->
  Spec.only_detail_changes c s.
Proof.
  intros Hin E. unfold Spec.only_detail_changes, exec. rewrite E. cbn [fst snd].
  repeat split; try (destruct s; reflexivity).
  right. exists r. now split.
Qed.

(** C10.  Whatever is clicked in the list, both handlers return without
    throwing, keep [page], [matches] and every array, keep the list area
    (previews, message, button) and every part of the document other than
    the detail overlay; either nothing changes at all or the detail overlay
    is set to show one record of the catalog. *)
Theorem C10_click_keeps_pagination_and_list :
  forall (D : DataJs) (path : list Node) (s : State),
    Spec.only_detail_changes (Scripts.on_list_items_click path) s
    /\ Spec.only_detail_changes (Part000.on_list_items_click path) s.
Proof.
  intros D path s.
  destruct (click_cases path s) as [[E1|(r1 & Hin1 & E1)] [E2|(r2 & Hin2 & E2)]]; split;
    first [ now apply frame_unchanged
          | now apply (frame_detail_shown _ s r1 Hin1)
          | now apply (frame_detail_shown _ s r2 Hin2) ].
Qed.

(** ** The three ways a preview is built (C9) *)


(** ** The three ways a preview is built (C9) *)

Ltac collapse_literals :=
  cbn [String.append Str.collapse Str.is_ws Ascii.eqb Bool.eqb orb andb Common.nl Str.dq].

Lemma preview_same_markup `{DataJs} (b : Book.t) :
  Str.collapse_ws (innerHTML (Common.createBookPreviewElement b))
  = Str.collapse_ws (innerHTML (Scripts.inline_preview b)).
Proof.
  unfold Str.collapse_ws, Common.createBookPreviewElement, Scripts.inline_preview.
  cbn [innerHTML].
  generalize (Book.image b) as img, (Book.title b) as ttl,
    (Obj.interpolate (Obj.get authors (Book.author b))) as name.
  intros img ttl name.
  collapse_literals.
  do 3 (rewrite !collapse_app; collapse_literals).
  reflexivity.
Qed.

Lemma same_preview_built `{DataJs} (b : Book.t) :
  Spec.same_preview (Common.createBookPreviewElement b) (Scripts.inline_preview b).
Proof.
  unfold Spec.same_preview.
  split; [reflexivity|]. split; [reflexivity|]. split; [reflexivity|].
  apply preview_same_markup.
Qed.

(** The difference is not only in how the tags are written: the first text
    node is a line break and 8 spaces in one, a line break and 12 spaces in
    the other, for every book. *)
Lemma preview_first_text_differs `{DataJs} (b : Book.t) :
  Str.text_before_tag (innerHTML (Common.createBookPreviewElement b))
  <> Str.text_before_tag (innerHTML (Scripts.inline_preview b)).
Proof.
  unfold Common.createBookPreviewElement, Scripts.inline_preview. cbn [innerHTML].
  cbn [String.append Str.text_before_tag Ascii.eqb Bool.eqb Common.nl Str.dq].
  discriminate.
Qed.

(** C9, read as equality of the elements, fails: the helper and the inline
    construction of scripts.js lay their markup out on different lines. *)
Lemma C9_markup_counterexample : ~ Spec.previews_identical.
Proof.
  intros claim. specialize (claim Demo.data Demo.dune).
  apply (f_equal (fun e => String.length (innerHTML e))) in claim.
  vm_compute in claim. discriminate claim.
Qed.

(** C9, amended.  For one book the helper [createBookPreviewElement] (first
    paint of both files, and every path of part_000) and the inline
    construction of scripts.js (search and "show more") build a button with
    class preview and the book's id in data-preview, and markup that is the
    same once every run of white space is read as one space; so the lists
    the two constructions render from the same books agree preview by
    preview.  The two inline constructions of scripts.js are the same text,
    and part_000 repaints and appends with the helper itself. *)
Theorem C9_previews_same_up_to_white_space :
  forall (D : DataJs) (b : Book.t) (l : list Book.t) (s : State),
    Spec.same_preview (Common.createBookPreviewElement b) (Scripts.inline_preview b)
    /\ tagName (Common.createBookPreviewElement b) = "button"%string
    /\ classList (Common.createBookPreviewElement b) = "preview"%string
    /\ data_preview (Common.createBookPreviewElement b) = Book.id b
    /\ Forall2 Spec.same_preview
         (map Common.createBookPreviewElement l) (map Scripts.inline_preview l)
    /\ items (view (dom (exec (Part000.updateBookList l) s)))
       = map Common.createBookPreviewElement (Arr.slice l 0 BOOKS_PER_PAGE)
    /\ items (view (dom (exec (Common.renderInitialBooks l) s)))
       = (items (view (dom s))
          ++ map Common.createBookPreviewElement (Arr.slice l 0 BOOKS_PER_PAGE))%list.
Proof.
  intros D b l s.
  split; [apply same_preview_built|].
  split; [reflexivity|]. split; [reflexivity|]. split; [reflexivity|].
  split; [|split].
  - induction l as [|x l IH]; constructor; [apply same_preview_built | exact IH].
  - destruct s; reflexivity.
  - destruct s; reflexivity.
Qed.

(* ------------------------------------------------------------------ *)
(** * Properties of the rest of the code *)

(** ** Theme (lines 71-84) *)

(** X1.  [applyTheme]: of two calls in a row only the second counts (so a
    call is idempotent and night followed by day gives the day colours
    back); the call changes the two colour properties and nothing else. *)
Theorem X1_applyTheme_last_call_wins :
  forall (a b : option string) (s : State),
    exec (Common.applyTheme b) (exec (Common.applyTheme a) s)
      = exec (Common.applyTheme b) s
    /\ with_dom (with_theme (theme (dom s))) (exec (Common.applyTheme b) s) = s
    /\ (theme (dom (exec (Common.applyTheme b) s)) = night_theme
        \/ theme (dom (exec (Common.applyTheme b) s)) = day_theme).
Proof.
  intros a b [h p m [v dt th dd ov st sc]].
  unfold Common.applyTheme, exec, modify. cbn.
  repeat split. destruct (strict_eq b "night"); [now left | now right].
Qed.

(** X2.  [initTheme] leaves the theme selector and the colours in step:
    the selector reads night or day as the platform prefers dark or not,
    and applying the theme the selector shows changes nothing. *)
Theorem X2_initTheme_selector_matches_colours :
  forall (D : DataJs) (s : State),
    let s' := exec Common.initTheme s in
    fst (Common.initTheme s) = Normal tt
    /\ settings_theme (dom s') = (if prefersDark then "night" else "day")%string
    /\ theme (dom s') = (if prefersDark then night_theme else day_theme)
    /\ exec (Common.applyTheme (Some (settings_theme (dom s')))) s' = s'.
Proof.
  intros D [h p m [v dt th dd ov st sc]].
  unfold Common.initTheme, Common.applyTheme, exec, bind, modify. cbn.
  destruct prefersDark; repeat split.
Qed.

(** ** The dropdowns and the first paint (lines 32-62) *)

(** X3.  [populateDropdown] appends to the dropdown it is given the option
    any with the label, then one option per entry of the map in the map's
    order; it keeps the options already there (a second call adds the whole
    block again), the other dropdown and the rest of the state. *)
Theorem X3_populateDropdown_appends_block :
  forall (dd : Common.Dropdown) (options : Obj.t) (label : string) (s : State),
    let s' := exec (Common.populateDropdown dd options label) s in
    let s'' := exec (Common.populateDropdown dd options label) s' in
    fst (Common.populateDropdown dd options label s) = Normal tt
    /\ dropdown_options dd (dom s')
       = (dropdown_options dd (dom s) ++ options_of options label)%list
    /\ map value (options_of options label) = "any"%string :: map fst options
    /\ dropdown_options (other_dropdown dd) (dom s')
       = dropdown_options (other_dropdown dd) (dom s)
    /\ dropdown_options dd (dom s'')
       = (dropdown_options dd (dom s)
          ++ options_of options label ++ options_of options label)%list
    /\ page s' = page s /\ matches s' = matches s /\ heap s' = heap s
    /\ view (dom s') = view (dom s) /\ detail (dom s') = detail (dom s)
    /\ theme (dom s') = theme (dom s) /\ overlays (dom s') = overlays (dom s).
Proof.
  intros dd options label [h p m [v dt th [g a] ov st sc]].
  destruct dd; cbn; repeat split;
    try (now rewrite map_map);
    try (now rewrite <- app_assoc).
Qed.

(** X4.  [renderInitialBooks] never clears the list: it appends the
    previews of the first BOOKS_PER_PAGE books it is given, of all of them
    when there are fewer; with a negative page size it appends all books but
    the last -BOOKS_PER_PAGE.  Nothing else changes. *)
Theorem X4_renderInitialBooks_appends_first_page :
  forall (D : DataJs) (l : list Book.t) (s : State),
    let s' := exec (Common.renderInitialBooks l) s in
    let k := if BOOKS_PER_PAGE <? 0 then Arr.len l + BOOKS_PER_PAGE else BOOKS_PER_PAGE in
    fst (Common.renderInitialBooks l s) = Normal tt
    /\ items (view (dom s'))
       = (items (view (dom s))
          ++ map Common.createBookPreviewElement (firstn (Z.to_nat k) l))%list
    /\ with_dom (with_view (with_items (fun _ => items (view (dom s))))) s' = s.
Proof.
  intros D l [h p m [[it ms bt] dt th dd ov st sc]] s' k.
  split; [reflexivity|]. split; [|reflexivity].
  unfold s', Common.renderInitialBooks, Common.list_items_append, exec, modify. cbn.
  do 2 f_equal. unfold k, Arr.slice, Arr.rel_index, Arr.len.
  change (0 <? 0) with false. cbv iota.
  replace (Z.min 0 (Z.of_nat (List.length l))) with 0 by lia.
  rewrite Z.sub_0_r. cbn [Z.to_nat skipn].
  destruct (Z.ltb_spec BOOKS_PER_PAGE 0).
  - f_equal. lia.
  - destruct (Z.le_ge_cases BOOKS_PER_PAGE (Z.of_nat (List.length l))).
    + now rewrite Z.min_l.
    + rewrite Z.min_r by assumption. rewrite Nat2Z.id, firstn_all.
      symmetry. apply firstn_all2. lia.
Qed.

(** ** The filters on any form (scripts.js 90-107, part_000 100-107) *)

Section FilterEdges.
Context `{DataJs}.
Variable filters : Obj.t.

Lemma genre_loop_any (g : option string) (gs : list string) (m : bool) :
  Scripts.genre_loop g gs m = (m || existsb (strict_eq g) gs)%bool.
Proof.
  revert m; induction gs as [|x gs IH]; intros m; simpl.
  - now rewrite orb_false_r.
  - destruct m; [reflexivity|]. rewrite IH. now destruct (strict_eq g x).
Qed.

Lemma book_passes_title (t : string) (book : Book.t) (s : State) :
  Obj.get filters "title" = Some t ->
  Scripts.book_passes filters book s = (Normal (passes_with_title filters t book), s).
Proof.
  intros Ht. unfold Scripts.book_passes, passes_with_title. rewrite Ht.
  rewrite genre_loop_any. unfold ret.
  apply (f_equal (fun b : bool => (Normal b, s))).
  repeat match goal with |- context [strict_eq ?a ?b] => destruct (strict_eq a b) end;
    repeat match goal with |- context [String.eqb ?a ?b] => destruct (String.eqb a b) end;
    repeat match goal with |- context [existsb ?f ?l] => destruct (existsb f l) end;
    repeat match goal with |- context [Str.includes ?a ?b] => destruct (Str.includes a b) end;
    reflexivity.
Qed.

Lemma filter_callback_title (t : string) (book : Book.t) (s : State) :
  Obj.get filters "title" = Some t ->
  Part000.filter_callback filters book s = (Normal (passes_with_title filters t book), s).
Proof.
  intros Ht. unfold Part000.filter_callback, passes_with_title. now rewrite Ht.
Qed.

Lemma filter_loop_title (t : string) (bs : list Book.t) :
  Obj.get filters "title" = Some t ->
  forall (pre : list (list Book.t)) (acc : list Book.t) (p : Z) (m : Ref) (d : Dom),
    Scripts.filter_loop filters (List.length pre) bs
      {| heap := pre ++ [acc]; page := p; matches := m; dom := d |}
    = (Normal tt,
       {| heap := pre ++ [acc ++ filter (passes_with_title filters t) bs];
          page := p; matches := m; dom := d |}).
Proof.
  intros Ht. induction bs as [|b bs IH]; intros pre acc p m d.
  - simpl. unfold ret. now rewrite app_nil_r.
  - cbn [Scripts.filter_loop filter]. unfold bind at 1.
    rewrite (book_passes_title t) by assumption.
    destruct (passes_with_title filters t b); unfold bind at 1; cbn.
    + unfold with_heap; cbn [heap page matches dom].
      rewrite push_last, IH. now rewrite <- app_assoc.
    + apply IH.
Qed.

Lemma inline_filter_title (t : string) (s : State) :
  Obj.get filters "title" = Some t ->
  Scripts.inline_filter filters s
  = (Normal (List.length (heap s)),
     with_heap (fun h => (h ++ [filter (passes_with_title filters t) books])%list) s).
Proof.
  intros Ht. destruct s as [h p m d]. unfold Scripts.inline_filter. js_unfold.
  unfold with_heap. cbn.
  rewrite (filter_loop_title t books Ht h [] p m d). reflexivity.
Qed.

Lemma array_filter_title (t : string) (bs : list Book.t) (s : State) :
  Obj.get filters "title" = Some t ->
  Part000.array_filter (Part000.filter_callback filters) bs s
  = (Normal (filter (passes_with_title filters t) bs), s).
Proof.
  intros Ht. induction bs as [|b bs IH]; [reflexivity|].
  cbn [Part000.array_filter filter]. unfold bind at 1.
  rewrite (filter_callback_title t) by assumption. unfold bind at 1.
  rewrite IH. reflexivity.
Qed.

Lemma inline_filter_no_title (s : State) (b : Book.t) (rest : list Book.t) :
  Obj.get filters "title" = None ->
  books = b :: rest ->
  Scripts.inline_filter filters s
  = (Abrupt TypeError, with_heap (fun h => (h ++ [[]])%list) s).
Proof.
  intros Ht Hb. destruct s as [h p m d]. unfold Scripts.inline_filter. js_unfold.
  rewrite Hb. cbn [Scripts.filter_loop]. unfold bind, Scripts.book_passes.
  rewrite Ht. reflexivity.
Qed.

Lemma array_filter_no_title (s : State) (b : Book.t) (rest : list Book.t) :
  Obj.get filters "title" = None ->
  Part000.array_filter (Part000.filter_callback filters) (b :: rest) s
  = (Abrupt TypeError, s).
Proof.
  intros Ht. cbn [Part000.array_filter]. unfold bind, Part000.filter_callback.
  rewrite Ht. reflexivity.
Qed.

Lemma filter_all {A : Type} (p : A -> bool) (l : list A) :
  (forall x, In x l -> p x = true) -> filter p l = l.
Proof.
  induction l as [|x l IH]; intros Hp; [reflexivity|].
  cbn [filter]. rewrite (Hp x (or_introl eq_refl)). f_equal.
  apply IH. intros y Hy. apply Hp. now right.
Qed.

Lemma filter_none {A : Type} (p : A -> bool) (l : list A) :
  (forall x, In x l -> p x = false) -> filter p l = [].
Proof.
  induction l as [|x l IH]; intros Hp; [reflexivity|].
  cbn [filter]. rewrite (Hp x (or_introl eq_refl)).
  apply IH. intros y Hy. apply Hp. now right.
Qed.

End FilterEdges.

Lemma submit_runs_repaint_title `{DataJs} (fd : FormData) (t : string) (s : State) :
  Obj.get (Obj.fromEntries fd) "title" = Some t ->
  Scripts.on_search_form_submit fd s
  = (Normal tt,
     exec (Scripts.repaint (List.length (heap s)))
          (with_heap (fun h =>
             (h ++ [filter (passes_with_title (Obj.fromEntries fd) t) books])%list) s)).
Proof.
  intros Ht. unfold Scripts.on_search_form_submit. unfold bind at 1.
  rewrite (inline_filter_title (Obj.fromEntries fd) t s Ht). reflexivity.
Qed.

(** X5.  A form with genre any, author any and a title that trims to the
    empty string selects the whole catalog, in both files; the search of
    scripts.js then binds [matches] to a copy of the catalog, not to the
    imported array. *)
Theorem X5_open_criteria_select_whole_catalog :
  forall (D : DataJs) (fd : FormData) (t : string) (s : State),
    Obj.get (Obj.fromEntries fd) "genre" = Some "any"%string ->
    Obj.get (Obj.fromEntries fd) "author" = Some "any"%string ->
    Obj.get (Obj.fromEntries fd) "title" = Some t ->
    trim t = Str.empty ->
    let s' := exec (Scripts.on_search_form_submit fd) s in
    Part000.filterBooks (Obj.fromEntries fd) s = (Normal books, s)
    /\ Scripts.inline_filter (Obj.fromEntries fd) s
       = (Normal (List.length (heap s)), with_heap (fun h => (h ++ [books])%list) s)
    /\ deref (heap s') (matches s') = books
    /\ matches s' <> BooksArray.
Proof.
  intros D fd t s Hg Ha Ht Htrim s'.
  assert (E : filter (passes_with_title (Obj.fromEntries fd) t) books = books).
  { apply filter_all. intros b _. unfold passes_with_title.
    rewrite Hg, Ha, Htrim. reflexivity. }
  split; [|split].
  - unfold Part000.filterBooks. rewrite (array_filter_title _ t) by assumption.
    now rewrite E.
  - rewrite (inline_filter_title _ t) by assumption. now rewrite E.
  - unfold s', exec. rewrite (submit_runs_repaint_title fd t s Ht). cbn [snd]. rewrite E.
    destruct s as [h p m d]. cbn. rewrite nth_last. split; [reflexivity | discriminate].
Qed.

Lemma X5_open_criteria_witness :
  @Part000.filterBooks Demo.data (Obj.fromEntries Samples.blank_form) Demo.painted
  = (Normal [Demo.dune; Demo.emma; Demo.dracula], Demo.painted).
Proof.
  exact (proj1 (X5_open_criteria_select_whole_catalog Demo.data Samples.blank_form
                  "   "%string Demo.painted eq_refl eq_refl eq_refl eq_refl)).
Defined.

(** X6.  A form without a title field makes both filters throw a TypeError
    at the first book: [filterBooks] returns nothing, and the search handler
    of scripts.js stops before it touches [page], [matches], the array
    [matches] denotes or the document.  On an empty catalog nothing is
    thrown: the result is empty and scripts.js shows the empty-state
    message. *)
Theorem X6_missing_title_throws_unless_catalog_empty :
  forall (D : DataJs) (fd : FormData) (s : State),
    Obj.get (Obj.fromEntries fd) "title" = None ->
    valid_ref (heap s) (matches s) ->
    let s' := exec (Scripts.on_search_form_submit fd) s in
    (books <> [] ->
       Part000.filterBooks (Obj.fromEntries fd) s = (Abrupt TypeError, s)
       /\ fst (Scripts.on_search_form_submit fd s) = Abrupt TypeError
       /\ page s' = page s /\ matches s' = matches s /\ dom s' = dom s
       /\ deref (heap s') (matches s') = deref (heap s) (matches s))
    /\ (books = [] ->
       Part000.filterBooks (Obj.fromEntries fd) s = (Normal [], s)
       /\ fst (Scripts.on_search_form_submit fd s) = Normal tt
       /\ deref (heap s') (matches s') = []
       /\ message_show (view (dom s')) = true).
Proof.
  intros D fd s Ht Hv s'. split.
  - intros Hne. destruct books as [|b rest] eqn:Hb; [contradiction|].
    split.
    + unfold Part000.filterBooks. rewrite Hb. now apply array_filter_no_title.
    + unfold s', exec, Scripts.on_search_form_submit, bind.
      rewrite (inline_filter_no_title _ s b rest Ht Hb). cbn [fst snd].
      destruct s as [h p m d]; cbn [heap page matches dom with_heap] in *.
      repeat split. unfold deref. destruct m as [|n]; [reflexivity|].
      now apply nth_before_last.
  - intros Hb. split.
    + unfold Part000.filterBooks. rewrite Hb. reflexivity.
    + unfold s', exec, Scripts.on_search_form_submit, Scripts.inline_filter.
      rewrite Hb. destruct s as [h p m d]. cbn.
      rewrite nth_last. repeat split.
Qed.

Lemma X6_missing_title_witness :
  fst (@Scripts.on_search_form_submit Demo.data Samples.no_title_form Demo.painted)
    = Abrupt TypeError
  /\ @Part000.filterBooks Samples.data_empty (Obj.fromEntries Samples.no_title_form)
       Demo.painted = (Normal [], Demo.painted).
Proof.
  split.
  - assert (Hne : @books Demo.data <> []) by discriminate.
    exact (proj1 (proj2 (proj1 (X6_missing_title_throws_unless_catalog_empty Demo.data
             Samples.no_title_form Demo.painted eq_refl I) Hne))).
  - exact (proj1 (proj2 (X6_missing_title_throws_unless_catalog_empty Samples.data_empty
             Samples.no_title_form Demo.painted eq_refl I) eq_refl)).
Defined.

(** X7.  A form with a title but without a genre field, or without an
    author field, selects no book at all, in both files, and throws
    nothing. *)
Theorem X7_missing_genre_or_author_selects_nothing :
  forall (D : DataJs) (fd : FormData) (t : string) (s : State),
    Obj.get (Obj.fromEntries fd) "title" = Some t ->
    Obj.get (Obj.fromEntries fd) "genre" = None
      \/ Obj.get (Obj.fromEntries fd) "author" = None ->
    let s' := exec (Scripts.on_search_form_submit fd) s in
    Part000.filterBooks (Obj.fromEntries fd) s = (Normal [], s)
    /\ fst (Scripts.on_search_form_submit fd s) = Normal tt
    /\ deref (heap s') (matches s') = []
    /\ items (view (dom s')) = []
    /\ message_show (view (dom s')) = true.
Proof.
  intros D fd t s Ht Hmiss s'.
  assert (E : filter (passes_with_title (Obj.fromEntries fd) t) books = []).
  { apply filter_none. intros b _. unfold passes_with_title.
    destruct Hmiss as [Hg|Ha].
    - rewrite Hg. cbn [strict_eq orb].
      assert (En : existsb (strict_eq None) (Book.genres b) = false)
        by (induction (Book.genres b); [reflexivity | assumption]).
      now rewrite En.
    - rewrite Ha. cbn [strict_eq orb]. now rewrite andb_false_r. }
  split.
  - unfold Part000.filterBooks. rewrite (array_filter_title _ t) by assumption.
    now rewrite E.
  - unfold s', exec. rewrite (submit_runs_repaint_title fd t s Ht). cbn [fst snd].
    rewrite E. destruct s as [h p m d]. cbn. rewrite nth_last. repeat split.
    unfold Arr.slice. cbn [List.length]. now rewrite skipn_nil, firstn_nil.
Qed.

Lemma X7_missing_genre_witness :
  @Part000.filterBooks Demo.data (Obj.fromEntries Samples.no_genre_form) Demo.painted
  = (Normal [], Demo.painted).
Proof.
  exact (proj1 (X7_missing_genre_or_author_selects_nothing Demo.data Samples.no_genre_form
                  Str.empty Demo.painted eq_refl (or_introl eq_refl))).
Defined.

(** ** The search handler of scripts.js on any form (lines 86-151) *)

Lemma scripts_search_state `{DataJs} (fd : FormData) (t : string) (s : State) :
  Obj.get (Obj.fromEntries fd) "title" = Some t ->
  let R := filter (passes_with_title (Obj.fromEntries fd) t) books in
  let s' := exec (Scripts.on_search_form_submit fd) s in
  fst (Scripts.on_search_form_submit fd s) = Normal tt
  /\ page s' = 1
  /\ matches s' = Allocated (List.length (heap s))
  /\ heap s' = (heap s ++ [R])%list
  /\ deref (heap s') (matches s') = R
  /\ (forall r, valid_ref (heap s) r -> deref (heap s') r = deref (heap s) r).
Proof.
  intros Ht R s'. unfold s', exec.
  rewrite (submit_runs_repaint_title fd t s Ht). cbn [fst snd]. fold R.
  destruct s as [h p m d]. cbn [heap]. repeat split.
  - cbn. apply nth_last.
  - intros r Hr. cbn [heap Scripts.repaint]. now apply deref_grow.
Qed.

Lemma scripts_search_items `{DataJs} (fd : FormData) (t : string) (s : State) :
  Obj.get (Obj.fromEntries fd) "title" = Some t ->
  let R := filter (passes_with_title (Obj.fromEntries fd) t) books in
  items (view (dom (exec (Scripts.on_search_form_submit fd) s)))
  = map Scripts.inline_preview (Arr.slice R 0 BOOKS_PER_PAGE).
Proof.
  intros Ht R. unfold exec. rewrite (submit_runs_repaint_title fd t s Ht). cbn [snd].
  fold R. destruct s as [h p m d]. cbn. now rewrite nth_last.
Qed.

(** X8.  scripts.js: a submission whose form has a title field always
    returns; it sets [page] to 1 and binds [matches] to an array it has just
    allocated, which holds the books that pass the test, a subsequence of
    the catalog; the arrays that existed before (the one [matches] was bound
    to, the imported catalog) keep their contents. *)
Theorem X8_scripts_search_rebinds_matches :
  forall (D : DataJs) (fd : FormData) (t : string) (s : State),
    Obj.get (Obj.fromEntries fd) "title" = Some t ->
    let R := filter (passes_with_title (Obj.fromEntries fd) t) books in
    let s' := exec (Scripts.on_search_form_submit fd) s in
    fst (Scripts.on_search_form_submit fd s) = Normal tt
    /\ page s' = 1
    /\ matches s' = Allocated (List.length (heap s))
    /\ heap s' = (heap s ++ [R])%list
    /\ deref (heap s') (matches s') = R
    /\ Spec.Subsequence R books
    /\ (forall r, valid_ref (heap s) r -> deref (heap s') r = deref (heap s) r).
Proof.
  intros D fd t s Ht R s'. unfold s', exec.
  rewrite (submit_runs_repaint_title fd t s Ht). cbn [fst snd]. fold R.
  destruct s as [h p m d]. cbn [heap]. repeat split.
  - cbn. apply nth_last.
  - apply filter_subsequence.
  - intros r Hr. cbn [heap Scripts.repaint]. now apply deref_grow.
Qed.

Lemma X8_scripts_search_witness :
  let s' := exec (@Scripts.on_search_form_submit Demo.data Samples.dune_form)
              (@Scripts.run Demo.data [ListButtonClick] Demo.painted) in
  page s' = 1 /\ @deref Demo.data (heap s') (matches s') = [Demo.dune].
Proof.
  pose proof (X8_scripts_search_rebinds_matches Demo.data Samples.dune_form "DU"%string
                (@Scripts.run Demo.data [ListButtonClick] Demo.painted) eq_refl) as W.
  cbv zeta in W. destruct W as (_ & Hp & _ & _ & Hd & _).
  split; [exact Hp | exact Hd].
Defined.

(** X9.  scripts.js, after such a submission: the list holds the previews
    of the first page of the result and nothing else; the empty-state
    message is shown exactly when the result is empty; the button is
    disabled exactly when the result has at most BOOKS_PER_PAGE books and
    its label shows the number of books beyond the first page, never a
    negative number; the search overlay is closed and the window scrolled to
    the top; the detail overlay, the colours, the dropdowns and the theme
    selector are untouched. *)
Theorem X9_scripts_search_repaints_first_page :
  forall (D : DataJs) (fd : FormData) (t : string) (s : State),
    Obj.get (Obj.fromEntries fd) "title" = Some t ->
    let R := filter (passes_with_title (Obj.fromEntries fd) t) books in
    let s' := exec (Scripts.on_search_form_submit fd) s in
    items (view (dom s')) = map Scripts.inline_preview (Arr.slice R 0 BOOKS_PER_PAGE)
    /\ (message_show (view (dom s')) = true <-> R = [])
    /\ (disabled (button (view (dom s'))) = true <-> Arr.len R <= BOOKS_PER_PAGE)
    /\ button_html (button (view (dom s')))
       = Common.show_more_html (Z.max (Arr.len R - BOOKS_PER_PAGE) 0)
    /\ search_overlay_open (overlays (dom s')) = false
    /\ scroll_top (dom s') = 0
    /\ detail (dom s') = detail (dom s)
    /\ theme (dom s') = theme (dom s)
    /\ dropdowns (dom s') = dropdowns (dom s)
    /\ settings_theme (dom s') = settings_theme (dom s)
    /\ settings_overlay_open (overlays (dom s')) = settings_overlay_open (overlays (dom s)).
Proof.
  intros D fd t s Ht R s'.
  assert (Es : s' = exec (Scripts.repaint (List.length (heap s)))
                      (with_heap (fun h => (h ++ [R])%list) s)).
  { unfold s', exec. now rewrite (submit_runs_repaint_title fd t s Ht). }
  pose proof (repaint_state (List.length (heap s))
                (with_heap (fun h => (h ++ [R])%list) s)) as St.
  cbv zeta in St. rewrite <- Es in St.
  assert (En : nth (List.length (heap s))
                 (heap (with_heap (fun h => (h ++ [R])%list) s)) [] = R).
  { destruct s as [h p m d]; cbn [heap with_heap]. apply nth_last. }
  rewrite En in St.
  destruct St as (_ & _ & _ & Ei & Emsg & Edis & Ehtml & Eov & Edet & Eth).
  split; [exact Ei|]. split; [|split; [|split; [|split; [exact Eov|]]]].
  - rewrite Emsg. unfold Arr.len. destruct R as [|b l]; cbn [List.length].
    + split; reflexivity.
    + split; [|discriminate]. intros E. apply Z.ltb_lt in E. lia.
  - rewrite Edis. rewrite Z.ltb_lt. lia.
  - rewrite Ehtml. f_equal. lia.
  - split; [|split; [exact Edet | split; [exact Eth|]]];
      rewrite Es; destruct s as [h p m d]; repeat split.
Qed.

Lemma X9_scripts_search_witness :
  let s' := exec (@Scripts.on_search_form_submit Demo.data Demo.no_match_form) Demo.painted in
  items (view (dom s')) = [] /\ (message_show (view (dom s')) = true <-> True).
Proof.
  pose proof (X9_scripts_search_repaints_first_page Demo.data Demo.no_match_form
                "zzz"%string Demo.painted eq_refl) as W.
  cbv zeta in W. destruct W as (Hi & Hm & _).
  split; [exact Hi|]. split; [trivial|]. intros _. apply Hm. reflexivity.
Defined.

(** ** "Show more" (scripts.js 153-178, part_000 126-145) *)

Section Presses.
Context `{DataJs}.

Lemma scripts_run_snoc (es : list Event) (e : Event) (s : State) :
  Scripts.run (es ++ [e]) s = Scripts.step (Scripts.run es s) e.
Proof. unfold Scripts.run. now rewrite fold_left_app. Qed.

Lemma part000_run_snoc (es : list Event) (e : Event) (s : State) :
  Part000.run (es ++ [e]) s = Part000.step (Part000.run es s) e.
Proof. unfold Part000.run. now rewrite fold_left_app. Qed.

Lemma scripts_show_more_n (n : nat) :
  forall s : State,
    0 <= BOOKS_PER_PAGE -> 0 <= page s ->
    let s' := Scripts.run (repeat ListButtonClick n) s in
    let M := deref (heap s) (matches s) in
    page s' = page s + Z.of_nat n
    /\ heap s' = heap s /\ matches s' = matches s
    /\ items (view (dom s'))
       = (items (view (dom s))
          ++ map Scripts.inline_preview
               (Arr.slice M (page s * BOOKS_PER_PAGE)
                            ((page s + Z.of_nat n) * BOOKS_PER_PAGE)))%list
    /\ with_page (page s) (with_dom (with_view (with_items (fun _ =>
         items (view (dom s))))) s') = s.
Proof.
  induction n as [|n IH]; intros s HB Hp.
  - cbn [repeat Scripts.run fold_left]. rewrite Z.add_0_r. repeat split.
    + rewrite slice_range by nia. rewrite Nat.sub_diag. cbn. now rewrite app_nil_r.
    + destruct s as [h p m [[it ms bt] dt th dd ov st sc]]. reflexivity.
  - cbn [repeat Scripts.run fold_left].
    change (fold_left Scripts.step (repeat ListButtonClick n) ?x)
      with (Scripts.run (repeat ListButtonClick n) x).
    set (s1 := Scripts.step s ListButtonClick).
    assert (E1 : s1 = with_page (page s + 1)
                   (with_dom (with_view (with_items (fun old =>
                      (old ++ map Scripts.inline_preview
                         (Arr.slice (deref (heap s) (matches s))
                            (page s * BOOKS_PER_PAGE)
                            ((page s + 1) * BOOKS_PER_PAGE)))%list))) s)).
    { unfold s1, Scripts.step, exec. cbn [Scripts.handler].
      now rewrite scripts_show_more. }
    assert (F1 : page s1 = page s + 1 /\ heap s1 = heap s /\ matches s1 = matches s
                 /\ items (view (dom s1))
                    = (items (view (dom s))
                       ++ map Scripts.inline_preview
                            (Arr.slice (deref (heap s) (matches s))
                               (page s * BOOKS_PER_PAGE)
                               ((page s + 1) * BOOKS_PER_PAGE)))%list).
    { rewrite E1. destruct s; repeat split. }
    destruct F1 as (Ep & Eh & Em & Ei).
    specialize (IH s1 HB ltac:(lia)). cbv zeta in IH.
    destruct IH as (IHp & IHh & IHm & IHi & IHf).
    rewrite IHp, IHh, IHm, IHi, Ep, Eh, Em, Ei. repeat split; try lia.
    + rewrite <- app_assoc, <- map_app. do 2 f_equal.
      rewrite slice_chain by nia. f_equal. lia.
    + clear - IHf E1. revert IHf.
      generalize (Scripts.run (repeat ListButtonClick n) s1) as X. intros X IHf.
      rewrite E1 in IHf.
      destruct X as [h' p' m' [[it' ms' bt'] dt' th' dd' ov' st' sc']].
      destruct s as [h p m [[it ms bt] dt th dd ov st sc]].
      unfold with_page, with_dom, with_view, with_items in *.
      cbn [heap page matches dom view detail theme dropdowns overlays settings_theme
           scroll_top items message_show button] in *.
      injection IHf; intros; subst; reflexivity.
Qed.

End Presses.

(** X10.  part_000: in a state where the list shows the first [page] pages
    of [matches], a press on "show more" leaves the button disabled exactly
    when every match is in the list, and its label shows the number of
    matches that are not yet in the list. *)
Theorem X10_part000_button_counts_what_is_left :
  forall (D : DataJs) (s : State),
    0 <= BOOKS_PER_PAGE ->
    page_invariant s ->
    let s' := exec Part000.on_list_button_click s in
    let M := deref (heap s') (matches s') in
    page_invariant s'
    /\ (disabled (button (view (dom s'))) = true
        <-> Arr.len (items (view (dom s'))) = Arr.len M)
    /\ button_html (button (view (dom s')))
       = Common.show_more_html (Arr.len M - Arr.len (items (view (dom s')))).
Proof.
  intros D s HB Hinv s' M.
  assert (Hinv' : page_invariant s').
  { apply (invariant_part000_step HB s ListButtonClick Hinv). }
  split; [exact Hinv'|].
  destruct Hinv' as (Hp' & _ & Hc'). unfold Spec.rendered_count_ok in Hc'.
  fold M in Hc'. rewrite Hc'.
  pose proof (len_nonneg M) as HM.
  assert (Es : s' = snd (Part000.on_list_button_click s)) by reflexivity.
  rewrite part000_show_more in Es. cbn [snd] in Es.
  assert (Epage : page s' = page s + 1) by (rewrite Es; destruct s; reflexivity).
  assert (EM : M = deref (heap s) (matches s))
    by (unfold M; rewrite Es; destruct s; reflexivity).
  assert (Eb : button (view (dom s'))
               = {| disabled := Arr.len M - (page s + 1) * BOOKS_PER_PAGE <=? 0;
                    button_html :=
                      Common.show_more_html
                        (if Arr.len M - (page s + 1) * BOOKS_PER_PAGE >? 0
                         then Arr.len M - (page s + 1) * BOOKS_PER_PAGE else 0) |}).
  { rewrite EM, Es. destruct s; reflexivity. }
  rewrite Eb, Epage. cbn [disabled button_html]. split.
  - rewrite Z.leb_le. nia.
  - f_equal. destruct (Z.gtb_spec (Arr.len M - (page s + 1) * BOOKS_PER_PAGE) 0); nia.
Qed.

Lemma X10_part000_button_witness :
  let s' := exec (@Part000.on_list_button_click Demo.data) Demo.painted in
  disabled (button (view (dom s'))) = true
  <-> Arr.len (items (view (dom s'))) = Arr.len (@deref Demo.data (heap s') (matches s')).
Proof.
  assert (HB : 0 <= @BOOKS_PER_PAGE Demo.data) by (cbn; lia).
  assert (Hinv : @page_invariant Demo.data Demo.painted).
  { unfold page_invariant, Spec.rendered_count_ok. cbn. repeat split; lia. }
  exact (proj1 (proj2 (X10_part000_button_counts_what_is_left Demo.data Demo.painted HB Hinv))).
Defined.

(** X11.  part_000: n+1 presses in a row on a state at page p append the
    previews of matches[p*N : (p+n+1)*N] in order, each position once, move
    to page p+n+1, keep [matches], and leave the button counting what lies
    beyond that page; pressed on an exhausted list they append nothing and
    throw nothing, yet the page number still grows. *)
Theorem X11_part000_presses_append_contiguous_range :
  forall (D : DataJs) (n : nat) (s : State),
    0 <= BOOKS_PER_PAGE -> 0 <= page s ->
    let s' := Part000.run (repeat ListButtonClick (S n)) s in
    let M := deref (heap s) (matches s) in
    let left := Arr.len M - (page s + Z.of_nat (S n)) * BOOKS_PER_PAGE in
    page s' = page s + Z.of_nat (S n)
    /\ heap s' = heap s /\ matches s' = matches s
    /\ items (view (dom s'))
       = (items (view (dom s))
          ++ map Common.createBookPreviewElement
               (Arr.slice M (page s * BOOKS_PER_PAGE)
                            ((page s + Z.of_nat (S n)) * BOOKS_PER_PAGE)))%list
    /\ button (view (dom s'))
       = {| disabled := (left <=? 0);
            button_html := Common.show_more_html (Z.max left 0) |}
    /\ (Arr.len M <= page s * BOOKS_PER_PAGE ->
        items (view (dom s')) = items (view (dom s))).
Proof.
  intros D n s HB Hp s' M left.
  pose proof (part000_show_more_n (S n) s HB Hp) as A. cbv zeta in A.
  destruct A as (Ap & Ah & Am & Ai). fold s' in Ap, Ah, Am, Ai. fold M in Ai.
  split; [exact Ap|]. split; [exact Ah|]. split; [exact Am|]. split; [exact Ai|].
  split.
  - unfold s'. change (repeat ListButtonClick (S n)) with (ListButtonClick :: repeat ListButtonClick n).
    rewrite repeat_cons, part000_run_snoc.
    pose proof (part000_show_more_n n s HB Hp) as B. cbv zeta in B.
    destruct B as (Bp & Bh & Bm & _).
    set (sn := Part000.run (repeat ListButtonClick n) s) in *.
    unfold Part000.step, exec. cbn [Part000.handler].
    rewrite part000_show_more. cbn [snd]. rewrite Bp, Bh, Bm. fold M.
    replace (Arr.len M - (page s + Z.of_nat n + 1) * BOOKS_PER_PAGE) with left
      by (unfold left; lia).
    destruct sn as [h' p' m' [[it' ms' bt'] dt' th' dd' ov' st' sc']].
    cbn [with_dom with_view with_button with_page with_items dom view button heap page matches].
    f_equal. f_equal. destruct (Z.gtb_spec left 0); lia.
  - intros Hex. rewrite Ai. rewrite slice_exhausted by nia. cbn [map]. apply app_nil_r.
Qed.

Lemma X11_part000_presses_witness :
  let s' := @Part000.run Demo.data (repeat ListButtonClick 2) Demo.painted in
  page s' = 3 /\ List.length (items (view (dom s'))) = 3%nat.
Proof.
  assert (HB : 0 <= @BOOKS_PER_PAGE Demo.data) by (cbn; lia).
  assert (Hp : 0 <= page Demo.painted) by (cbn; lia).
  pose proof (X11_part000_presses_append_contiguous_range Demo.data 1 Demo.painted HB Hp) as W.
  cbv zeta in W. destruct W as (Wp & _ & _ & Wi & _).
  split; [exact Wp | rewrite Wi; reflexivity].
Defined.

(** X12.  scripts.js: n presses in a row on a state at page p append the
    previews of matches[p*N : (p+n)*N] in order, each position once, and
    move to page p+n; they change nothing else (the button is never
    written); pressed on an exhausted list they append nothing and throw
    nothing, yet the page number still grows. *)
Theorem X12_scripts_presses_append_contiguous_range :
  forall (D : DataJs) (n : nat) (s : State),
    0 <= BOOKS_PER_PAGE -> 0 <= page s ->
    let s' := Scripts.run (repeat ListButtonClick n) s in
    let M := deref (heap s) (matches s) in
    page s' = page s + Z.of_nat n
    /\ heap s' = heap s /\ matches s' = matches s
    /\ items (view (dom s'))
       = (items (view (dom s))
          ++ map Scripts.inline_preview
               (Arr.slice M (page s * BOOKS_PER_PAGE)
                            ((page s + Z.of_nat n) * BOOKS_PER_PAGE)))%list
    /\ with_page (page s) (with_dom (with_view (with_items (fun _ =>
         items (view (dom s))))) s') = s
    /\ (Arr.len M <= page s * BOOKS_PER_PAGE ->
        items (view (dom s')) = items (view (dom s))).
Proof.
  intros D n s HB Hp s' M.
  pose proof (scripts_show_more_n n s HB Hp) as A. cbv zeta in A.
  destruct A as (Ap & Ah & Am & Ai & Af). fold s' in Ap, Ah, Am, Ai, Af. fold M in Ai.
  repeat (split; [assumption|]).
  intros Hex. rewrite Ai. rewrite slice_exhausted by nia. cbn [map]. apply app_nil_r.
Qed.

Lemma X12_scripts_presses_witness :
  let s' := @Scripts.run Demo.data (repeat ListButtonClick 3) Demo.painted in
  page s' = 4 /\ List.length (items (view (dom s'))) = 3%nat.
Proof.
  assert (HB : 0 <= @BOOKS_PER_PAGE Demo.data) by (cbn; lia).
  assert (Hp : 0 <= page Demo.painted) by (cbn; lia).
  pose proof (X12_scripts_presses_append_contiguous_range Demo.data 3 Demo.painted HB Hp) as W.
  cbv zeta in W. destruct W as (Wp & _ & _ & Wi & _).
  split; [exact Wp | rewrite Wi; reflexivity].
Defined.

(** X13.  scripts.js: a search followed by n presses on "show more" shows
    the first (n+1)*BOOKS_PER_PAGE books of the search result, in the order
    of the result, at page n+1; the button still carries what the search
    wrote. *)
Theorem X13_scripts_search_then_presses :
  forall (D : DataJs) (fd : FormData) (t : string) (n : nat) (s : State),
    0 <= BOOKS_PER_PAGE ->
    Obj.get (Obj.fromEntries fd) "title" = Some t ->
    let R := filter (passes_with_title (Obj.fromEntries fd) t) books in
    let s1 := Scripts.step s (SearchFormSubmit fd) in
    let s' := Scripts.run (SearchFormSubmit fd :: repeat ListButtonClick n) s in
    page s' = Z.of_nat n + 1
    /\ deref (heap s') (matches s') = R
    /\ items (view (dom s'))
       = map Scripts.inline_preview
           (Arr.slice R 0 ((Z.of_nat n + 1) * BOOKS_PER_PAGE))
    /\ button (view (dom s')) = button (view (dom s1)).
Proof.
  intros D fd t n s HB Ht R s1 s'.
  pose proof (scripts_search_state fd t s Ht) as A.
  cbv zeta in A. fold R in A. destruct A as (_ & Ap & Am & Ah & Ad & _).
  pose proof (scripts_search_items fd t s Ht) as Ei. cbv zeta in Ei. fold R in Ei.
  assert (Es1 : s1 = exec (Scripts.on_search_form_submit fd) s) by reflexivity.
  rewrite <- Es1 in Ap, Am, Ah, Ad, Ei.
  assert (Hp1 : 0 <= page s1) by lia.
  pose proof (scripts_show_more_n n s1 HB Hp1) as B. cbv zeta in B.
  change (Scripts.run (repeat ListButtonClick n) s1) with s' in B.
  destruct B as (Bp & Bh & Bm & Bi & Bf).
  rewrite Bp, Bh, Bm, Bi, Ap, Ad, Ei.
  split; [lia|]. split; [reflexivity|]. split.
  - rewrite <- map_app. f_equal.
    replace (1 * BOOKS_PER_PAGE) with BOOKS_PER_PAGE by lia.
    rewrite slice_chain by nia. f_equal. lia.
  - apply (f_equal (fun x => button (view (dom x)))) in Bf. rewrite <- Bf.
    destruct s' as [h' p' m' [[it' ms' bt'] dt' th' dd' ov' st' sc']].
    reflexivity.
Qed.

Lemma X13_scripts_search_then_presses_witness :
  let s' := @Scripts.run Demo.data
              (SearchFormSubmit Demo.any_form :: repeat ListButtonClick 1) Demo.painted in
  page s' = 2 /\ List.length (items (view (dom s'))) = 3%nat.
Proof.
  assert (HB : 0 <= @BOOKS_PER_PAGE Demo.data) by (cbn; lia).
  pose proof (X13_scripts_search_then_presses Demo.data Demo.any_form Str.empty 1
                Demo.painted HB eq_refl) as W.
  cbv zeta in W. destruct W as (Wp & _ & Wi & _).
  split; [exact Wp | rewrite Wi; reflexivity].
Defined.

(** ** What the list shows, in every reachable state *)

Section ListInvariant.
Context `{DataJs}.
Hypothesis page_size_nonneg : 0 <= BOOKS_PER_PAGE.

Lemma same_preview_refl (e : Element) : Spec.same_preview e e.
Proof. repeat split. Qed.

Lemma same_preview_inline (b : Book.t) :
  Spec.same_preview (Scripts.inline_preview b) (Common.createBookPreviewElement b).
Proof.
  destruct (same_preview_built b) as (E1 & E2 & E3 & E4).
  unfold Spec.same_preview.
  split; [symmetry; exact E1|]. split; [symmetry; exact E2|].
  split; [symmetry; exact E3 | symmetry; exact E4].
Qed.

Lemma shows_map (mk : Book.t -> Element) (l : list Book.t) :
  (forall b, Spec.same_preview (mk b) (Common.createBookPreviewElement b)) ->
  Forall2 (fun e b => Spec.same_preview e (Common.createBookPreviewElement b)) (map mk l) l.
Proof. intros Hmk. induction l; constructor; [apply Hmk | assumption]. Qed.

Lemma slice_nil {A : Type} (a b : Z) : Arr.slice (@nil A) a b = [].
Proof. unfold Arr.slice. now rewrite skipn_nil, firstn_nil. Qed.

Lemma subsequence_in {A : Type} (l1 l2 : list A) (x : A) :
  Spec.Subsequence l1 l2 -> In x l1 -> In x l2.
Proof.
  induction 1 as [|y l1 l2 _ IH|y l1 l2 _ IH]; intros Hin.
  - contradiction.
  - right. now apply IH.
  - destruct Hin as [->|Hin]; [now left | right; now apply IH].
Qed.

Lemma in_firstn {A : Type} (n : nat) (l : list A) (x : A) :
  In x (firstn n l) -> In x l.
Proof.
  revert l. induction n as [|n IH]; intros l Hin; [contradiction|].
  destruct l as [|y l]; [contradiction|].
  destruct Hin as [->|Hin]; [now left | right; now apply IH].
Qed.

Lemma in_skipn {A : Type} (n : nat) (l : list A) (x : A) :
  In x (skipn n l) -> In x l.
Proof.
  revert l. induction n as [|n IH]; intros l Hin; [exact Hin|].
  destruct l as [|y l]; [contradiction|]. right. now apply IH.
Qed.

Lemma slice_in {A : Type} (l : list A) (a b : Z) (x : A) :
  In x (Arr.slice l a b) -> In x l.
Proof.
  unfold Arr.slice. intros Hin. apply in_firstn in Hin. now apply in_skipn in Hin.
Qed.

Lemma list_invariant_initial (d0 : Dom) :
  items (view d0) = [] ->
  list_invariant (exec Common.initial_paint (Common.initial_state d0)).
Proof.
  intros Hd. split; [now apply invariant_initial|]. split.
  - unfold shows_pages.
    set (s0 := exec Common.initial_paint (Common.initial_state d0)).
    assert (Ei : items (view (dom s0))
                 = (items (view d0)
                    ++ map Common.createBookPreviewElement
                         (Arr.slice books 0 BOOKS_PER_PAGE))%list) by reflexivity.
    assert (Ep : page s0 = 1) by reflexivity.
    assert (Em : deref (heap s0) (matches s0) = books) by reflexivity.
    rewrite Ei, Ep, Em, Hd. cbn [app].
    replace (1 * BOOKS_PER_PAGE) with BOOKS_PER_PAGE by lia.
    apply shows_map. intros b. apply same_preview_refl.
  - apply subsequence_refl.
Qed.

Lemma list_invariant_append (s : State) (mk : Book.t -> Element) :
  (forall b, Spec.same_preview (mk b) (Common.createBookPreviewElement b)) ->
  list_invariant s ->
  list_invariant
    (with_page (page s + 1)
       (with_dom (with_view (with_items (fun old =>
          (old ++ map mk
                    (Arr.slice (deref (heap s) (matches s))
                               (page s * BOOKS_PER_PAGE)
                               ((page s + 1) * BOOKS_PER_PAGE)))%list))) s)).
Proof.
  intros Hmk (Hinv & Hshow & Hsub).
  split; [now apply invariant_append|].
  destruct Hinv as (Hp & _ & _). unfold shows_pages in *.
  destruct s as [h p m d]; cbn [heap page matches dom with_page with_dom with_view
    with_items view items] in *.
  split; [|exact Hsub].
  rewrite <- (slice_adjacent (deref h m) (p * BOOKS_PER_PAGE) ((p + 1) * BOOKS_PER_PAGE))
    by nia.
  apply Forall2_app; [exact Hshow | now apply shows_map].
Qed.

(** The filter of scripts.js either fills the new array with a subsequence
    of the catalog or throws on the first book, leaving it empty. *)
Lemma inline_filter_cases (filters : Obj.t) (s : State) :
  (exists R, Spec.Subsequence R books
     /\ Scripts.inline_filter filters s
        = (Normal (List.length (heap s)), with_heap (fun h => (h ++ [R])%list) s))
  \/ Scripts.inline_filter filters s
     = (Abrupt TypeError, with_heap (fun h => (h ++ [[]])%list) s).
Proof.
  destruct (Obj.get filters "title") as [t|] eqn:Ht.
  - left. exists (filter (passes_with_title filters t) books).
    split; [apply filter_subsequence | now apply inline_filter_title].
  - destruct books as [|b rest] eqn:Hb.
    + left. exists []. split; [constructor|].
      destruct s as [h p m d]. unfold Scripts.inline_filter. js_unfold.
      rewrite Hb. reflexivity.
    + right. now apply (inline_filter_no_title filters s b rest).
Qed.

Lemma list_invariant_scripts_submit (fd : FormData) (s : State) :
  list_invariant s -> list_invariant (exec (Scripts.on_search_form_submit fd) s).
Proof.
  intros (Hinv & Hshow & Hsub).
  split; [now apply invariant_scripts_submit|].
  destruct Hinv as (_ & Hv & _).
  unfold exec, Scripts.on_search_form_submit, bind.
  destruct (inline_filter_cases (Obj.fromEntries fd) s) as [(R & HR & E)|E]; rewrite E.
  - rewrite repaint_returns. cbn [snd].
    pose proof (repaint_state (List.length (heap s))
                  (with_heap (fun h => (h ++ [R])%list) s)) as St.
    cbv zeta in St. destruct St as (Eh & Ep & Em & Ei & _).
    assert (En : nth (List.length (heap s))
                   (heap (with_heap (fun h => (h ++ [R])%list) s)) [] = R).
    { destruct s as [h p m d]; cbn [heap with_heap]. apply nth_last. }
    rewrite En in Ei. unfold shows_pages. rewrite Ep, Em, Eh, Ei.
    cbn [deref]. rewrite En. split; [|exact HR].
    replace (1 * BOOKS_PER_PAGE) with BOOKS_PER_PAGE by lia.
    apply shows_map. intros b. apply same_preview_inline.
  - cbn [snd]. unfold shows_pages in *.
    destruct s as [h p m d]; cbn [heap page matches dom with_heap] in *.
    rewrite deref_grow by assumption. now split.
Qed.

Lemma list_invariant_detail (x : Detail) (s : State) :
  list_invariant s -> list_invariant (with_dom (with_detail x) s).
Proof. destruct s; exact (fun H => H). Qed.

Lemma list_invariant_scripts_step (s : State) (e : Event) :
  list_invariant s -> list_invariant (Scripts.step s e).
Proof.
  intros Hs. destruct e; unfold Scripts.step; cbn [Scripts.handler];
    try exact Hs.
  - now apply list_invariant_scripts_submit.
  - unfold exec. rewrite scripts_show_more.
    apply list_invariant_append; [apply same_preview_inline | exact Hs].
  - unfold exec, Scripts.on_list_items_click.
    destruct (Scripts.path_loop path None); [now apply list_invariant_detail | exact Hs].
Qed.

Lemma list_invariant_part000_step (s : State) (e : Event) :
  list_invariant s -> list_invariant (Part000.step s e).
Proof.
  intros Hs. destruct e; unfold Part000.step; cbn [Part000.handler];
    try exact Hs; try (destruct s; exact Hs).
  - unfold exec. rewrite part000_show_more. cbn [snd].
    apply (list_invariant_append s Common.createBookPreviewElement) in Hs;
      [|intros b; apply same_preview_refl].
    destruct s; exact Hs.
  - unfold exec, Part000.on_list_items_click.
    destruct (truthy _); [|exact Hs].
    destruct (find _ books); [|exact Hs].
    destruct s; exact Hs.
Qed.

Lemma list_invariant_scripts_run (es : list Event) :
  forall s, list_invariant s -> list_invariant (Scripts.run es s).
Proof.
  induction es as [|e es IH]; intros s Hs; [exact Hs|].
  apply IH. now apply list_invariant_scripts_step.
Qed.

Lemma list_invariant_part000_run (es : list Event) :
  forall s, list_invariant s -> list_invariant (Part000.run es s).
Proof.
  induction es as [|e es IH]; intros s Hs; [exact Hs|].
  apply IH. now apply list_invariant_part000_step.
Qed.

End ListInvariant.

(** X14.  From the first paint on an empty list, after any sequence of
    events in either file, the list holds, in order and each once, the
    previews of the first page*BOOKS_PER_PAGE books of [matches]: each
    element is what [createBookPreviewElement] builds from the book at its
    position, up to white space in the markup. *)
Theorem X14_list_shows_first_pages_of_matches :
  forall (D : DataJs) (d0 : Dom) (es : list Event),
    0 <= BOOKS_PER_PAGE ->
    items (view d0) = [] ->
    let s0 := exec Common.initial_paint (Common.initial_state d0) in
    shows_pages (Scripts.run es s0) /\ shows_pages (Part000.run es s0).
Proof.
  intros D d0 es HB Hd s0.
  pose proof (list_invariant_initial HB d0 Hd) as H0. fold s0 in H0. split.
  - apply (list_invariant_scripts_run HB es s0 H0).
  - apply (list_invariant_part000_run HB es s0 H0).
Qed.

Lemma X14_list_shows_witness :
  @shows_pages Demo.data
    (@Scripts.run Demo.data [SearchFormSubmit Samples.dune_form; ListButtonClick]
       Demo.painted).
Proof.
  assert (HB : 0 <= @BOOKS_PER_PAGE Demo.data) by (cbn; lia).
  exact (proj1 (X14_list_shows_first_pages_of_matches Demo.data Demo.page0
    [SearchFormSubmit Samples.dune_form; ListButtonClick] HB eq_refl)).
Defined.

(** ** [matches] and [page] over any sequence of events *)

Section MatchesInvariant.
Context `{DataJs}.

Lemma matches_in_catalog_scripts_step (s : State) (e : Event) :
  matches_in_catalog s -> matches_in_catalog (Scripts.step s e).
Proof.
  intros (Hp & Hv & Hsub).
  destruct e as [fd|fd| |path| | | | ]; unfold Scripts.step; cbn [Scripts.handler].
  1: { unfold exec, Scripts.on_search_form_submit, bind.
       destruct (inline_filter_cases (Obj.fromEntries fd) s) as [(R & HR & E)|E]; rewrite E.
       - rewrite repaint_returns. cbn [snd].
         pose proof (repaint_state (List.length (heap s))
                       (with_heap (fun h => (h ++ [R])%list) s)) as St.
         cbv zeta in St. destruct St as (Eh & Ep & Em & _).
         unfold matches_in_catalog. rewrite Ep, Em, Eh.
         destruct s as [h p m d]; cbn [heap with_heap valid_ref deref].
         rewrite nth_last, length_app. cbn [List.length].
         split; [lia|]. split; [lia | exact HR].
       - cbn [snd]. unfold matches_in_catalog.
         destruct s as [h p m d]; cbn [heap page matches dom with_heap] in *.
         rewrite deref_grow by assumption.
         split; [assumption|]. split; [now apply valid_ref_grow | assumption]. }
  all: try (unfold exec; rewrite scripts_show_more).
  all: try (unfold exec, Scripts.on_list_items_click;
            destruct (Scripts.path_loop _ None)).
  all: destruct s as [h p m d]; unfold matches_in_catalog in *;
    cbn [heap page matches dom snd exec ret with_page with_dom modify] in *;
    (split; [lia|]); split; assumption.
Qed.

Lemma matches_in_catalog_scripts_run (es : list Event) :
  forall s, matches_in_catalog s -> matches_in_catalog (Scripts.run es s).
Proof.
  induction es as [|e es IH]; intros s Hs; [exact Hs|].
  apply IH. now apply matches_in_catalog_scripts_step.
Qed.

Lemma presses_cons (e : Event) (es : list Event) :
  presses (e :: es)
  = (match e with ListButtonClick => 1 | _ => 0 end) + presses es.
Proof. unfold presses. destruct e; cbn [filter List.length]; lia. Qed.

Lemma part000_step_pagination (s : State) (e : Event) :
  let s' := Part000.step s e in
  matches s' = matches s /\ heap s' = heap s
  /\ page s' = page s + (match e with ListButtonClick => 1 | _ => 0 end).
Proof.
  cbv zeta. destruct e; unfold Part000.step; cbn [Part000.handler].
  all: try (unfold exec; rewrite part000_show_more).
  all: try (unfold exec, Part000.on_list_items_click;
            destruct (truthy _); [destruct (find _ books)|]).
  all: destruct s as [h p m d];
    cbn -[Common.show_more_html Arr.slice Z.mul Z.add]; repeat split; lia.
Qed.

Lemma part000_run_pagination (es : list Event) :
  forall s,
    let s' := Part000.run es s in
    matches s' = matches s /\ heap s' = heap s /\ page s' = page s + presses es.
Proof.
  induction es as [|e es IH]; intros s.
  - cbn. unfold presses. cbn. repeat split. lia.
  - cbn [Part000.run fold_left].
    change (fold_left Part000.step es ?x) with (Part000.run es x).
    specialize (IH (Part000.step s e)). cbv zeta in IH.
    destruct IH as (IHm & IHh & IHp).
    pose proof (part000_step_pagination s e) as St. cbv zeta in St.
    destruct St as (Em & Eh & Ep).
    rewrite IHm, IHh, IHp, Em, Eh, Ep, presses_cons. repeat split. lia.
Qed.

End MatchesInvariant.

(** X15.  After the first paint and any sequence of events: in scripts.js
    [matches] denotes a subsequence of the catalog and [page] is at least
    1; in part_000 [matches] is never rebound (it stays the imported
    catalog), no array is ever allocated, and [page] is 1 plus the number
    of presses on "show more", whatever else happened in between. *)
Theorem X15_matches_stay_within_catalog :
  forall (D : DataJs) (d0 : Dom) (es : list Event),
    let s0 := exec Common.initial_paint (Common.initial_state d0) in
    Spec.Subsequence (deref (heap (Scripts.run es s0)) (matches (Scripts.run es s0))) books
    /\ 1 <= page (Scripts.run es s0)
    /\ matches (Part000.run es s0) = BooksArray
    /\ heap (Part000.run es s0) = []
    /\ page (Part000.run es s0) = 1 + presses es.
Proof.
  intros D d0 es s0.
  assert (H0 : matches_in_catalog s0).
  { unfold matches_in_catalog. cbn. repeat split; [lia | apply subsequence_refl]. }
  pose proof (matches_in_catalog_scripts_run es s0 H0) as (Hp & _ & Hsub).
  pose proof (part000_run_pagination es s0) as P. cbv zeta in P.
  destruct P as (Pm & Ph & Pp).
  repeat split; assumption.
Qed.

(** ** The listener on the search form of part_000 (lines 86-93) *)

(** X16.  part_000: a submission of the search form never throws and never
    filters; it sets the night colours when the form has a theme field
    equal to night and the day colours in every other case, a form without
    theme field included; it sets a property open on the form and leaves
    both overlays, the list, [page], [matches] and the theme selector as
    they were.  So after [initTheme] under a dark preference, a search
    leaves the selector on night and the colours on day. *)
Theorem X16_part000_search_submit_sets_colours_only :
  forall (D : DataJs) (fd : FormData) (s : State),
    let s' := exec (Part000.on_search_form_submit fd) s in
    let s2 := exec (Part000.on_search_form_submit fd) (exec Common.initTheme s) in
    fst (Part000.on_search_form_submit fd s) = Normal tt
    /\ (Obj.get (Obj.fromEntries fd) "theme" = Some "night"%string ->
        theme (dom s') = night_theme)
    /\ (Obj.get (Obj.fromEntries fd) "theme" <> Some "night"%string ->
        theme (dom s') = day_theme)
    /\ search_overlay_open (overlays (dom s')) = search_overlay_open (overlays (dom s))
    /\ settings_overlay_open (overlays (dom s')) = settings_overlay_open (overlays (dom s))
    /\ search_form_open (overlays (dom s')) = Some false
    /\ page s' = page s /\ matches s' = matches s /\ heap s' = heap s
    /\ view (dom s') = view (dom s)
    /\ settings_theme (dom s') = settings_theme (dom s)
    /\ (prefersDark = true ->
        Obj.get (Obj.fromEntries fd) "theme" = None ->
        settings_theme (dom s2) = "night"%string /\ theme (dom s2) = day_theme).
Proof.
  intros D fd [h p m [v dt th dd ov st sc]].
  unfold Part000.on_search_form_submit, Common.initTheme, Common.applyTheme,
    exec, bind, modify. cbn.
  split; [reflexivity|]. split; [|split].
  - intros ->. reflexivity.
  - intros Hn. destruct (Obj.get (Obj.fromEntries fd) "theme") as [x|]; [|reflexivity].
    cbn [strict_eq]. destruct (String.eqb_spec x "night"); [|reflexivity].
    subst. now contradiction Hn.
  - do 8 (split; [reflexivity|]).
    intros Hdark Hnone. rewrite Hdark, Hnone. split; reflexivity.
Qed.

Lemma X16_part000_search_submit_witness :
  theme (dom (exec (Part000.on_search_form_submit Demo.any_form)
                (exec (@Common.initTheme Samples.data_negative) Demo.painted)))
  = day_theme
  /\ theme (dom (exec (Part000.on_search_form_submit Demo.night_form) Demo.painted))
     = night_theme.
Proof.
  pose proof (X16_part000_search_submit_sets_colours_only Samples.data_negative
                Demo.any_form Demo.painted) as W.
  cbv zeta in W.
  destruct W as (_ & _ & _ & _ & _ & _ & _ & _ & _ & _ & _ & W).
  split; [exact (proj2 (W eq_refl eq_refl))|].
  pose proof (X16_part000_search_submit_sets_colours_only Demo.data
                Demo.night_form Demo.painted) as V.
  cbv zeta in V. destruct V as (_ & V & _).
  exact (V eq_refl).
Defined.

(** ** The overlays (part_000 lines 148-165) *)

Section OverlayTrace.
Context `{DataJs}.

Lemma part000_step_overlays (s : State) (e : Event) :
  let s' := Part000.step s e in
  search_overlay_open (overlays (dom s'))
    = search_overlay_after [e] (search_overlay_open (overlays (dom s)))
  /\ settings_overlay_open (overlays (dom s'))
     = settings_overlay_after [e] (settings_overlay_open (overlays (dom s))).
Proof.
  cbv zeta. destruct e; unfold Part000.step; cbn [Part000.handler].
  all: try (unfold exec; rewrite part000_show_more).
  all: try (unfold exec, Part000.on_list_items_click;
            destruct (truthy _); [destruct (find _ books)|]).
  all: destruct s as [h p m [v dt th dd [so sto sf stf] st sc]];
    cbn -[Common.show_more_html Arr.slice Z.mul Z.add]; split; reflexivity.
Qed.

Lemma scripts_step_overlays (s : State) (e : Event) :
  let s' := Scripts.step s e in
  (search_overlay_open (overlays (dom s')) = true ->
   search_overlay_open (overlays (dom s)) = true)
  /\ settings_overlay_open (overlays (dom s')) = settings_overlay_open (overlays (dom s)).
Proof.
  cbv zeta. destruct e as [fd|fd| |path| | | | ]; unfold Scripts.step; cbn [Scripts.handler].
  1: { unfold exec, Scripts.on_search_form_submit, bind.
       destruct (inline_filter_cases (Obj.fromEntries fd) s) as [(R & _ & E)|E]; rewrite E.
       - rewrite repaint_returns. cbn [snd].
         destruct s as [h p m [v dt th dd [so sto sf stf] st sc]].
         split; [intros Hx; discriminate Hx | reflexivity].
       - cbn [snd]. destruct s as [h p m d]. split; [intros Hx; exact Hx | reflexivity]. }
  all: try (unfold exec; rewrite scripts_show_more).
  all: try (unfold exec, Scripts.on_list_items_click;
            destruct (Scripts.path_loop _ None)).
  all: destruct s as [h p m [v dt th dd [so sto sf stf] st sc]];
    split; [intros Hx; exact Hx | reflexivity].
Qed.

End OverlayTrace.

(** X17.  part_000: after any sequence of events the search overlay is open
    exactly when the last of the header-search and search-cancel clicks
    among them was a header-search click (unchanged when there was none),
    and likewise the settings overlay with its two buttons; no other
    handler, the search submission included, opens or closes an overlay.
    scripts.js never opens the search overlay and never writes the settings
    overlay. *)
Theorem X17_overlays_follow_their_buttons :
  forall (D : DataJs) (es : list Event) (s : State),
    search_overlay_open (overlays (dom (Part000.run es s)))
      = search_overlay_after es (search_overlay_open (overlays (dom s)))
    /\ settings_overlay_open (overlays (dom (Part000.run es s)))
       = settings_overlay_after es (settings_overlay_open (overlays (dom s)))
    /\ (search_overlay_open (overlays (dom (Scripts.run es s))) = true ->
        search_overlay_open (overlays (dom s)) = true)
    /\ settings_overlay_open (overlays (dom (Scripts.run es s)))
       = settings_overlay_open (overlays (dom s)).
Proof.
  intros D es. induction es as [|e es IH]; intros s.
  - cbn. repeat split. trivial.
  - cbn [Part000.run Scripts.run fold_left search_overlay_after settings_overlay_after].
    change (fold_left Part000.step es ?x) with (Part000.run es x).
    change (fold_left Scripts.step es ?x) with (Scripts.run es x).
    destruct (IH (Part000.step s e)) as (P1 & P2 & _ & _).
    destruct (IH (Scripts.step s e)) as (_ & _ & S1 & S2).
    pose proof (part000_step_overlays s e) as Q. cbv zeta in Q. destruct Q as (Q1 & Q2).
    pose proof (scripts_step_overlays s e) as R. cbv zeta in R. destruct R as (R1 & R2).
    split; [|split; [|split]].
    + rewrite P1, Q1. reflexivity.
    + rewrite P2, Q2. reflexivity.
    + intros Hopen. apply R1, S1, Hopen.
    + now rewrite S2, R2.
Qed.

(** ** Which book a click opens (scripts.js 180-207, part_000 180-186) *)

Section ClickLookup.
Context `{DataJs}.

Lemma book_loop_node (n : Node) :
  truthy (dataset_preview n) = true ->
  Scripts.book_loop (dataset_preview n) books None = node_book n.
Proof.
  intros Ht. unfold node_book. rewrite Ht.
  destruct (dataset_preview n) as [id|]; [|discriminate]. apply book_loop_find.
Qed.

Lemma path_loop_first_book (path : list Node) :
  Scripts.path_loop path None = first_book path.
Proof.
  induction path as [|n path IH]; [reflexivity|].
  cbn [Scripts.path_loop first_book].
  destruct (truthy (dataset_preview n)) eqn:Ht.
  - rewrite (book_loop_node n Ht). destruct (node_book n); [apply path_loop_some | exact IH].
  - unfold node_book. rewrite Ht. exact IH.
Qed.

Lemma first_book_datasets (path path' : list Node) :
  map dataset_preview path' = map dataset_preview path ->
  first_book path' = first_book path.
Proof.
  revert path'. induction path as [|n path IH]; intros [|n' path'] E;
    try discriminate; [reflexivity|].
  cbn [map] in E. injection E as En Erest.
  cbn [first_book]. unfold node_book. rewrite En. rewrite (IH path' Erest). reflexivity.
Qed.

Lemma forall2_in {A B : Type} (P : A -> B -> Prop) (l1 : list A) (l2 : list B) (x : A) :
  Forall2 P l1 l2 -> In x l1 -> exists y, In y l2 /\ P x y.
Proof.
  induction 1 as [|a b l1 l2 Hab _ IH]; intros Hin; [contradiction|].
  destruct Hin as [->|Hin].
  - exists b. split; [now left | assumption].
  - destruct (IH Hin) as (y & Hy & Hp). exists y. split; [now right | assumption].
Qed.

End ClickLookup.

(** X18.  scripts.js: a click opens the book of the first node of the path,
    from the target outwards, whose data-preview is not empty and is the id
    of a book of the catalog (the first such book in catalog order); nodes
    without the attribute, with an empty one or with an unknown id are
    passed over, and class names play no part.  part_000 consults one node
    only, the closest one of class preview: it opens the book of that
    node's data-preview or nothing.  Neither handler throws. *)
Theorem X18_click_lookup_by_path :
  forall (D : DataJs) (path : list Node) (s : State),
    let shown (found : option Book.t) :=
      match found with
      | Some b => (Normal tt, with_dom (with_detail (Spec.detail_of b)) s)
      | None => (Normal tt, s)
      end in
    Scripts.on_list_items_click path s = shown (first_book path)
    /\ (forall path' : list Node,
          map dataset_preview path' = map dataset_preview path ->
          Scripts.on_list_items_click path' s = Scripts.on_list_items_click path s)
    /\ Part000.on_list_items_click path s
       = shown (match Part000.closest_preview path with
                | Some n => node_book n
                | None => None
                end).
Proof.
  intros D path s shown.
  assert (E : forall p, Scripts.on_list_items_click p s = shown (first_book p)).
  { intros p. unfold Scripts.on_list_items_click. rewrite path_loop_first_book.
    destruct (first_book p); reflexivity. }
  split; [apply E|]. split.
  - intros path' Hd. rewrite !E. now rewrite (first_book_datasets path path').
  - unfold Part000.on_list_items_click, node_book.
    destruct (Part000.closest_preview path) as [n|]; [|reflexivity].
    destruct (truthy (dataset_preview n)); [|reflexivity].
    destruct (find _ books); reflexivity.
Qed.

(** X19.  From the first paint on an empty list, after any sequence of
    events in either file, every preview in the list can be clicked: when
    the ids of the catalog are unique and not empty, a click inside a
    preview of the list makes both click handlers open the detail overlay
    on a book of [matches], and of the catalog, of which that preview is the
    rendering. *)
Theorem X19_click_on_listed_preview_opens_its_book :
  forall (D : DataJs) (d0 : Dom) (es : list Event) (s : State) (e : Element)
         (inner outer : list Node),
    0 <= BOOKS_PER_PAGE ->
    items (view d0) = [] ->
    NoDup (map Book.id books) ->
    (forall b, In b books -> Book.id b <> Str.empty) ->
    s = Scripts.run es (exec Common.initial_paint (Common.initial_state d0))
      \/ s = Part000.run es (exec Common.initial_paint (Common.initial_state d0)) ->
    In e (items (view (dom s))) ->
    Forall Spec.plain inner -> Forall Spec.plain outer ->
    exists b : Book.t,
      In b (deref (heap s) (matches s))
      /\ In b books
      /\ Spec.same_preview e (Common.createBookPreviewElement b)
      /\ Scripts.on_list_items_click (inner ++ node_of_element e :: outer) s
         = (Normal tt, with_dom (with_detail (Spec.detail_of b)) s)
      /\ Part000.on_list_items_click (inner ++ node_of_element e :: outer) s
         = (Normal tt, with_dom (with_detail (Spec.detail_of b)) s).
Proof.
  intros D d0 es s e inner outer HB Hd Hnd Hne Hs He Hin Hout.
  assert (Hinv : list_invariant s).
  { pose proof (list_invariant_initial HB d0 Hd) as H0.
    destruct Hs as [->| ->].
    - now apply list_invariant_scripts_run.
    - now apply list_invariant_part000_run. }
  destruct Hinv as (_ & Hshow & Hsub).
  destruct (forall2_in _ _ _ e Hshow He) as (b & Hb & Hsame).
  apply slice_in in Hb.
  assert (Hbooks : In b books) by (eapply subsequence_in; eassumption).
  exists b. split; [exact Hb|]. split; [exact Hbooks|]. split; [exact Hsame|].
  destruct Hsame as (_ & Hclass & Hid & _). cbn [Common.createBookPreviewElement classList
    data_preview] in Hclass, Hid.
  assert (En : node_of_element e = Spec.preview_node (Book.id b)).
  { unfold node_of_element, Spec.preview_node. now rewrite Hclass, Hid. }
  rewrite En.
  pose proof (click_on_outcome (Book.id b) _ s
                (Spec.click_on (Book.id b) inner outer Hin Hout)) as O.
  cbv zeta in O.
  assert (Ee : String.eqb (Book.id b) Str.empty = false)
    by (apply String.eqb_neq; now apply Hne).
  rewrite Ee, (find_unique b books Hnd Hbooks) in O. exact O.
Qed.

Lemma X19_click_on_listed_preview_witness :
  exists b : Book.t,
    In b (@books Demo.data)
    /\ @Scripts.on_list_items_click Demo.data
         [node_of_element (@Scripts.inline_preview Demo.data Demo.dracula)]
         (@Scripts.run Demo.data [SearchFormSubmit Demo.any_form; ListButtonClick] Demo.painted)
       = (Normal tt,
          with_dom (with_detail (@Spec.detail_of Demo.data b))
            (@Scripts.run Demo.data [SearchFormSubmit Demo.any_form; ListButtonClick]
               Demo.painted)).
Proof.
  assert (HB : 0 <= @BOOKS_PER_PAGE Demo.data) by (cbn; lia).
  assert (Hnd : NoDup (map Book.id (@books Demo.data))).
  { cbn. repeat constructor; cbn; intuition discriminate. }
  assert (Hne : forall b, In b (@books Demo.data) -> Book.id b <> Str.empty).
  { intros b [<-|[<-|[<-|[]]]]; discriminate. }
  assert (He : In (@Scripts.inline_preview Demo.data Demo.dracula)
                 (items (view (dom (@Scripts.run Demo.data
                    [SearchFormSubmit Demo.any_form; ListButtonClick] Demo.painted))))).
  { cbn. right. right. left. reflexivity. }
  destruct (X19_click_on_listed_preview_opens_its_book Demo.data Demo.page0
              [SearchFormSubmit Demo.any_form; ListButtonClick] _ _ [] []
              HB eq_refl Hnd Hne (or_introl eq_refl) He (Forall_nil _) (Forall_nil _))
    as (b & _ & Hb & _ & Hclick & _).
  exists b. split; [exact Hb | exact Hclick].
Defined.

(** ** A missing author (lines 21, 134, 169, 176, 204) *)



Lemma X18_click_lookup_witness :
  @Scripts.on_list_items_click Demo.data
    [{| node_classes := []; dataset_preview := Some "b1"%string |}] Demo.painted
  = @Scripts.on_list_items_click Demo.data [Spec.preview_node "b1"] Demo.painted.
Proof.
  exact (proj1 (proj2 (X18_click_lookup_by_path Demo.data [Spec.preview_node "b1"]
                         Demo.painted))
           [{| node_classes := []; dataset_preview := Some "b1"%string |}] eq_refl).
Defined.

(** ** [updateBookList] (part_000 lines 113-120) *)

(** X21.  [updateBookList] replaces the list: after it the list holds the
    previews of the first page of the books it was given, whatever was
    there, so of two calls only the second counts.  It never touches the
    empty-state message, [page] or [matches], and the button it writes
    counts from the current [page], not from page 1. *)
Theorem X21_updateBookList_replaces_list :
  forall (D : DataJs) (fb fb' : list Book.t) (s : State),
    let s' := exec (Part000.updateBookList fb) s in
    let left := Arr.len fb - page s * BOOKS_PER_PAGE in
    fst (Part000.updateBookList fb s) = Normal tt
    /\ exec (Part000.updateBookList fb) (exec (Part000.updateBookList fb') s) = s'
    /\ items (view (dom s'))
       = map Common.createBookPreviewElement (Arr.slice fb 0 BOOKS_PER_PAGE)
    /\ message_show (view (dom s')) = message_show (view (dom s))
    /\ page s' = page s /\ matches s' = matches s /\ heap s' = heap s
    /\ button (view (dom s'))
       = {| disabled := (left <=? 0);
            button_html := Common.show_more_html (Z.max left 0) |}.
Proof.
  intros D fb fb' [h p m [[it ms bt] dt th dd ov st sc]] s' left.
  split; [reflexivity|]. split; [reflexivity|]. split; [reflexivity|].
  do 4 (split; [reflexivity|]).
  transitivity {| disabled := (left <=? 0);
                  button_html := Common.show_more_html (if left >? 0 then left else 0) |};
    [reflexivity|].
  do 2 f_equal. destruct (Z.gtb_spec left 0); lia.
Qed.

(** ** Arrays in scripts.js *)

Section HeapGrowth.
Context `{DataJs}.

Lemma scripts_step_heap (s : State) (e : Event) :
  exists fresh : list (list Book.t),
    heap (Scripts.step s e) = (heap s ++ fresh)%list
    /\ List.length fresh = submissions [e].
Proof.
  destruct e as [fd|fd| |path| | | | ]; unfold Scripts.step; cbn [Scripts.handler].
  1: { unfold exec, Scripts.on_search_form_submit, bind.
       destruct (inline_filter_cases (Obj.fromEntries fd) s) as [(R & _ & E)|E]; rewrite E.
       - exists [R]. rewrite repaint_returns. cbn [snd].
         destruct s as [h p m d]. split; reflexivity.
       - exists [[]]. destruct s as [h p m d]. split; reflexivity. }
  all: exists [].
  all: try (unfold exec; rewrite scripts_show_more).
  all: try (unfold exec, Scripts.on_list_items_click;
            destruct (Scripts.path_loop _ None)).
  all: destruct s as [h p m d]; cbn [heap snd exec ret with_page with_dom modify];
    rewrite app_nil_r; split; reflexivity.
Qed.

Lemma submissions_cons (e : Event) (es : list Event) :
  submissions (e :: es) = (submissions [e] + submissions es)%nat.
Proof. unfold submissions. destruct e; reflexivity. Qed.

Lemma deref_extend (h fresh : list (list Book.t)) (r : Ref) :
  valid_ref h r -> deref (h ++ fresh) r = deref h r.
Proof. destruct r as [|n]; simpl; [reflexivity | intros Hn; now apply app_nth1]. Qed.

End HeapGrowth.

(** X22.  scripts.js only ever adds arrays: over any sequence of events it
    allocates one array per submission of the search form (also for a
    submission that throws) and none otherwise, and every array that
    existed before, the imported catalog among them, keeps its contents. *)
Theorem X22_scripts_arrays_are_never_overwritten :
  forall (D : DataJs) (es : list Event) (s : State),
    exists fresh : list (list Book.t),
      heap (Scripts.run es s) = (heap s ++ fresh)%list
      /\ List.length fresh = submissions es
      /\ (forall r, valid_ref (heap s) r ->
            deref (heap (Scripts.run es s)) r = deref (heap s) r).
Proof.
  intros D es. induction es as [|e es IH]; intros s.
  - exists []. cbn. rewrite app_nil_r. repeat split.
  - cbn [Scripts.run fold_left].
    change (fold_left Scripts.step es ?x) with (Scripts.run es x).
    destruct (scripts_step_heap s e) as (f1 & E1 & L1).
    destruct (IH (Scripts.step s e)) as (f2 & E2 & L2 & _).
    exists (f1 ++ f2)%list. rewrite E2, E1, <- app_assoc.
    split; [reflexivity|]. split.
    + rewrite length_app, L1, L2. symmetry. apply submissions_cons.
    + intros r Hr. now apply deref_extend.
Qed.

(** ** The two filters, on any form *)

(** X23.  On every form, with or without its fields, [filterBooks] of
    part_000 and the inline filter of scripts.js do the same: either both
    return the same books in the same order (scripts.js in a new array), or
    both throw a TypeError. *)
Theorem X23_filters_of_both_files_agree :
  forall (D : DataJs) (filters : Obj.t) (s : State),
    match fst (Part000.filterBooks filters s) with
    | Normal R =>
        Scripts.inline_filter filters s
        = (Normal (List.length (heap s)), with_heap (fun h => (h ++ [R])%list) s)
    | Abrupt e =>
        fst (Scripts.inline_filter filters s) = Abrupt e
    end
    /\ snd (Part000.filterBooks filters s) = s.
Proof.
  intros D filters s. unfold Part000.filterBooks.
  destruct (Obj.get filters "title") as [t|] eqn:Ht.
  - rewrite (array_filter_title filters t books s Ht). cbn [fst snd].
    split; [now apply inline_filter_title | reflexivity].
  - destruct books as [|b rest] eqn:Hb.
    + cbn. split; [|reflexivity].
      destruct s as [h p m d]. unfold Scripts.inline_filter. js_unfold.
      rewrite Hb. reflexivity.
    + rewrite (array_filter_no_title filters s b rest Ht). cbn [fst snd].
      split; [|reflexivity].
      now rewrite (inline_filter_no_title filters s b rest Ht Hb).
Qed.
